(** * metronome-wallet-core: bridge token API and Qtum wallet plugin

    A shallow embedding of
      - [src/plugins/metronome/token-api.js]
          (estimateExportMetGas, estimateImportMetGas, addAccount,
           getNextNonce, sendMet, exportMet, importMet), and
      - [src/plugins/qtum-wallet/index.js] (sendCoin),
    together with the JavaScript primitives those functions rely on
    (truthiness and [||], default parameters, [Promise.all] / [.then],
    [Number.parseInt]).

    Conventions of the embedding.
      - JavaScript values are the inductive [jsval]; object literals are
        association lists in the order the source writes their fields.
      - Every interaction with a collaborator outside these two files (the
        node, a contract object, the SDK, the tracker) is recorded, in program
        order, in a journal of [event]s.
      - A promise is represented by its eventual settlement; an asynchronous
        computation is the journal of the calls it issues paired with that
        settlement.
      - Collaborators are total functions: an exception thrown synchronously
        by one of them is outside the model. *)

From Stdlib Require HexadecimalString HexadecimalPos.
From Stdlib Require Import ZArith List String Ascii Bool Lia.
From Stdlib Require Import DecimalString DecimalPos.
Import ListNotations.
Local Open Scope string_scope.
Local Open Scope list_scope.
Local Open Scope Z_scope.

(* ===================================================================== *)
(** ** JavaScript values *)
(* ===================================================================== *)

(** [JNum n] stands for the Number whose value is the integer [n]; [JNaN] is
    the Number NaN.  Numbers with a fractional part have no representation as
    a [JNum]: the programs below never compute with them, they only pass
    values along, test them for truthiness, or parse strings. *)
#[warnings="-register-all"]
Inductive jsval : Type :=
| JUndefined
| JNull
| JBool (b : bool)
| JNum (n : Z)
| JNaN
| JStr (s : string)
| JArr (elements : list jsval)
| JObj (fields : list (string * jsval)).

(** The own properties of an object, one entry per property name, in the
    order the source writes them. *)
Definition obj : Type := list (string * jsval).

(** Property read [o.k]; a property that is absent reads as [undefined]. *)
Fixpoint prop (k : string) (o : obj) : jsval :=
  match o with
  | [] => JUndefined
  | (k', v) :: rest => if String.eqb k k' then v else prop k rest
  end.

(** ToBoolean. *)
Definition truthy (v : jsval) : bool :=
  match v with
  | JUndefined | JNull | JNaN => false
  | JBool b => b
  | JNum n => negb (n =? 0)
  | JStr s => negb (String.eqb s "")
  | JArr _ | JObj _ => true
  end.

(** [a || b] on values that are already evaluated. *)
Definition js_or (a b : jsval) : jsval := if truthy a then a else b.

(** A destructuring default, [{ k = d }]: the default applies exactly when
    the property reads as [undefined]. *)
Definition with_default (v d : jsval) : jsval :=
  match v with
  | JUndefined => d
  | _ => v
  end.

(* ===================================================================== *)
(** ** ToString and Number.parseInt *)
(* ===================================================================== *)

(** Decimal form of an integer. *)
Definition decimal (n : Z) : string := NilZero.string_of_int (Z.to_int n).

(** ToString on the values above.  For [JNum n] the decimal form is what
    JavaScript prints as long as [|n| <= 2^53]; above that JavaScript
    prints the shortest digits that identify the double, and exponent
    notation from 10^21 on, which is not modelled.  The statements about
    printed numbers below are confined to that range. *)
Fixpoint ToString (v : jsval) : string :=
  match v with
  | JUndefined => "undefined"
  | JNull => "null"
  | JBool true => "true"
  | JBool false => "false"
  | JNum n => decimal n
  | JNaN => "NaN"
  | JStr s => s
  | JArr xs =>
      (fix join (l : list jsval) : string :=
         match l with
         | [] => ""
         | x :: rest =>
             let sx := match x with
                       | JUndefined | JNull => ""
                       | _ => ToString x
                       end in
             match rest with
             | [] => sx
             | _ :: _ => (sx ++ "," ++ join rest)%string
             end
         end) xs
  | JObj _ => "[object Object]"
  end.

Definition code (c : ascii) : Z := Z.of_N (N_of_ascii c).

(** StrWhiteSpaceChar, on the UTF-8 bytes of the string: the one-byte
    characters TAB, LF, VT, FF, CR and SP, ... *)
Definition ws1 (a : ascii) : bool :=
  let n := code a in ((9 <=? n) && (n <=? 13)) || (n =? 32).

(** ... the two-byte U+00A0, ... *)
Definition ws2 (a b : ascii) : bool :=
  (code a =? 194) && (code b =? 160).

(** ... and the three-byte U+1680, U+2000 to U+200A, U+2028, U+2029, U+202F,
    U+205F, U+3000 and U+FEFF. *)
Definition ws3 (a b c : ascii) : bool :=
  let x := code a in
  let y := code b in
  let z := code c in
  ((x =? 225) && (y =? 154) && (z =? 128))
  || ((x =? 226) && (y =? 128)
      && (((128 <=? z) && (z <=? 138)) || (z =? 168) || (z =? 169) || (z =? 175)))
  || ((x =? 226) && (y =? 129) && (z =? 159))
  || ((x =? 227) && (y =? 128) && (z =? 128))
  || ((x =? 239) && (y =? 187) && (z =? 191)).

(** TrimString(inputString, start). *)
Fixpoint skip_ws (s : string) : string :=
  match s with
  | EmptyString => s
  | String a r1 =>
      if ws1 a then skip_ws r1
      else
        match r1 with
        | EmptyString => s
        | String b r2 =>
            if ws2 a b then skip_ws r2
            else
              match r2 with
              | EmptyString => s
              | String c r3 => if ws3 a b c then skip_ws r3 else s
              end
        end
  end.

(** The value of a character as a digit: 0-9, then a-z / A-Z for 10-35. *)
Definition digit_value (c : ascii) : option Z :=
  let n := code c in
  if (48 <=? n) && (n <=? 57) then Some (n - 48)
  else if (97 <=? n) && (n <=? 122) then Some (n - 87)
  else if (65 <=? n) && (n <=? 90) then Some (n - 55)
  else None.

(** The longest prefix of [s] made of radix-[R] digits, as digit values. *)
Fixpoint leading_digits (R : Z) (s : string) : list Z :=
  match s with
  | EmptyString => []
  | String c r =>
      match digit_value c with
      | Some d => if d <? R then d :: leading_digits R r else []
      | None => []
      end
  end.

Definition mathInt (R : Z) (ds : list Z) : Z :=
  fold_left (fun acc d => acc * R + d) ds 0.

(** The sign step of parseInt: [-1] for a leading minus, and the string with
    a leading [+] or [-] removed. *)
Definition split_sign (s : string) : Z * string :=
  match s with
  | String c r =>
      if code c =? 45 then (-1, r)
      else if code c =? 43 then (1, r)
      else (1, s)
  | EmptyString => (1, s)
  end.

(** The radix step of parseInt when no radix is passed: a [0x] / [0X] prefix
    is removed and selects radix 16, anything else is read in radix 10. *)
Definition split_radix (s : string) : Z * string :=
  match s with
  | String z (String x r) =>
      if (code z =? 48) && ((code x =? 120) || (code x =? 88)) then (16, r)
      else (10, s)
  | _ => (10, s)
  end.

(** [Number.parseInt(string)] with the radix argument absent.  A result
    [JNum n] with [|n| <= 2^53] is the Number JavaScript computes; above
    that JavaScript rounds to a double, which is not modelled, and the
    statements about parsed amounts below are confined to that range.  The
    sign of a zero result is not tracked. *)
Definition parseInt_string (inputString : string) : jsval :=
  let (sign, S1) := split_sign (skip_ws inputString) in
  let (R, S2) := split_radix S1 in
  match leading_digits R S2 with
  | [] => JNaN
  | ds => JNum (sign * mathInt R ds)
  end.

(** [Number.parseInt(value)]: the argument is first converted with ToString. *)
Definition Number_parseInt (value : jsval) : jsval :=
  parseInt_string (ToString value).

(* ===================================================================== *)
(** ** Promises and the journal of external calls *)
(* ===================================================================== *)

(** How a promise ends.  [Resolved a]: the promise was resolved with [a]
    (when [a] is itself promise-like, as a PromiEvent is, JavaScript lets the
    promise follow it).  [Rejected rs]: the promise rejects; [rs] lists the
    reasons it can reject with.  A single failed request has one reason;
    [Promise.all] over several failing elements rejects with the reason of
    whichever settles first, so all of them are candidates. *)
Inductive settled (A : Type) : Type :=
| Resolved (a : A)
| Rejected (reasons : list jsval).
Arguments Resolved {A} a.
Arguments Rejected {A} reasons.

Definition is_rejected {A : Type} (s : settled A) : bool :=
  match s with
  | Resolved _ => false
  | Rejected _ => true
  end.

(** A contract call object, [Contract.methods.method(...args)]. *)
Record txcall : Type := mkCall {
  contract : string;
  method : string;
  args : list jsval
}.

Section Model.

(** The handle of a broadcast (a PromiEvent), which is also what the
    tracker's [logTransaction] hands back. *)
Variable handle : Type.
(** What a meta parser builds from its argument. *)
Variable meta : Type.
(** The promise returned by the Qtum wallet's [send]. *)
Variable sendPromise : Type.
(** Opaque configuration objects. *)
Variables Chain Lib QtumRPC : Type.

(** External interactions, in the order the program performs them. *)
Inductive event : Type :=
| EvAddAccount (privateKey : jsval)
    (* web3.eth.accounts.wallet.create(0).add(privateKeyToAccount(pk)) *)
| EvGetTransactionCount (address : jsval) (blockTag : string)
    (* web3.eth.getTransactionCount(address, blockTag) *)
| EvCall (tx : txcall)
    (* tx.call() *)
| EvSend (tx : txcall) (options : jsval)
    (* tx.send(options): the call is built, signed and broadcast *)
| EvEstimateGas (tx : txcall) (options : jsval)
    (* tx.estimateGas(options) *)
| EvGetExportMetFee (arg : jsval)
    (* getExportMetFee(web3, chain)(arg) *)
| EvSdkGetContracts
    (* met.getContracts() *)
| EvSdkSendMet (arguments : list jsval)
    (* met.sendMet(...arguments) *)
| EvSdkEstimateExportMetGas (arguments : list jsval)
    (* met.estimateExportMetGas(...arguments) *)
| EvWalletSend (privateKey to amount options : jsval)
    (* walletRPCProvider.fromPrivateKey(pk).wallet.send(to, amount, options) *)
| EvLogTransaction (h : handle) (address : jsval) (template : option meta).
    (* logTransaction(h, address [, template]) *)

Definition journal : Type := list event.

(** An asynchronous computation: the calls issued, and how the promise it
    returns ends. *)
Definition async (A : Type) : Type := (journal * settled A)%type.

(** A plain value placed in a [Promise.all] array. *)
Definition plain {A : Type} (a : A) : async A := ([], Resolved a).

(** One request to a collaborator and the promise it returns. *)
Definition request {A : Type} (e : event) (answer : settled A) : async A :=
  ([e], answer).

(** Synchronous work done before a promise is created. *)
Definition after {A : Type} (j : journal) (p : async A) : async A :=
  (j ++ fst p, snd p).

(** [p.then(callback)]: the callback runs only when [p] is resolved, after
    everything [p] issued; a rejection passes through untouched. *)
Definition then_ {A B : Type} (p : async A) (callback : A -> async B)
  : async B :=
  match p with
  | (j, Resolved a) => after j (callback a)
  | (j, Rejected rs) => (j, Rejected rs)
  end.

(** [Promise.all(array)]: the elements of the array literal are evaluated
    left to right, each issuing its request; the result resolves with all
    the values, or rejects as soon as one element rejects.  It resolves with
    as many values as the array has elements, so a callback that destructures
    the result never reaches the last branch of the [match] that stands for
    the destructuring below. *)
Fixpoint Promise_all (ps : list (async jsval)) : async (list jsval) :=
  match ps with
  | [] => ([], Resolved [])
  | (j, s) :: rest =>
      let (j', s') := Promise_all rest in
      (j ++ j',
       match s, s' with
       | Resolved v, Resolved vs => Resolved (v :: vs)
       | Resolved _, Rejected rs => Rejected rs
       | Rejected rs, Resolved _ => Rejected rs
       | Rejected rs, Rejected rs' => Rejected (rs ++ rs')
       end)
  end.

(* =================================================================== *)
(** ** Collaborators *)
(* =================================================================== *)

(** The part of a web3 instance the code reads. *)
Record Web3 : Type := {
  eth_getTransactionCount : jsval -> string -> settled jsval
}.

(** The contract objects of [new MetronomeContracts(web3, chain)]. *)
Record Contracts : Type := {
  call : txcall -> settled jsval;
  send : txcall -> jsval -> handle;
  estimateGas : txcall -> jsval -> settled jsval
}.

(** What [met.getContracts()] resolves to, as far as it is read:
    [METToken.options.address]. *)
Record SdkContracts : Type := {
  METToken_options_address : jsval
}.

(** A metronome-sdk instance, [createMetronome(provider)]. *)
Record Metronome : Type := {
  met_getContracts : settled SdkContracts;
  met_sendMet : list jsval -> handle;
  met_estimateExportMetGas : list jsval -> settled jsval
}.

Record Coin : Type := { lib : Lib }.

(** The [metaParsers] object handed to the token API. *)
Record MetaParsers : Type := {
  transfer : jsval -> meta;
  export : jsval -> meta;
  importRequest : jsval -> meta
}.

(** [toHex] of web3-utils. *)
Variable toHex : jsval -> jsval.
(** [new MetronomeContracts(web3, chain)] of metronome-contracts. *)
Variable MetronomeContracts : Web3 -> Chain -> Contracts.
(** [createMetronome(createProvider.fromLib(lib))] of metronome-sdk. *)
Variable createMetronome : Lib -> Metronome.
(** [getExportMetFee(web3, chain)(arg)] of ./porter-api. *)
Variable getExportMetFee : Web3 -> Chain -> jsval -> settled jsval.

Definition Auctions_methods (m : string) (a : list jsval) : txcall :=
  mkCall "Auctions" m a.
Definition METToken_methods (m : string) (a : list jsval) : txcall :=
  mkCall "METToken" m a.

(* =================================================================== *)
(** ** src/plugins/metronome/token-api.js *)
(* =================================================================== *)

Definition estimateExportMetGas (coin : Coin) (params : obj)
  : async jsval :=
  let met := createMetronome (lib coin) in
  let destinationChain := prop "destinationChain" params in
  let destinationMetAddress := prop "destinationMetAddress" params in
  let extraData := prop "extraData" params in
  let fee := prop "fee" params in
  let from := prop "from" params in
  let to := prop "to" params in
  let value := prop "value" params in
  let arguments :=
    [ JObj [ ("destChain", destinationChain);
             ("destMetronomeAddr", destinationMetAddress) ];
      js_or to from;
      value;
      fee;
      extraData;
      JObj [ ("from", from) ] ] in
  request (EvSdkEstimateExportMetGas arguments)
          (met_estimateExportMetGas met arguments).

Definition estimateImportMetGas (web3 : Web3) (chain : Chain)
  (params : obj) : async jsval :=
  let c := MetronomeContracts web3 chain in
  let blockTimestamp := prop "blockTimestamp" params in
  let burnSequence := prop "burnSequence" params in
  let currentBurnHash := prop "currentBurnHash" params in
  let currentTick := prop "currentTick" params in
  let dailyMintable := prop "dailyMintable" params in
  let destinationChain := prop "destinationChain" params in
  let destinationMetAddress := prop "destinationMetAddress" params in
  let extraData := prop "extraData" params in
  let fee := prop "fee" params in
  let from := prop "from" params in
  let originChain := prop "originChain" params in
  let previousBurnHash := prop "previousBurnHash" params in
  let supply := prop "supply" params in
  let root := prop "root" params in
  let value := prop "value" params in
  then_
    (Promise_all
       [ request (EvCall (Auctions_methods "genesisTime" []))
                 (call c (Auctions_methods "genesisTime" []));
         request (EvCall (Auctions_methods "dailyAuctionStartTime" []))
                 (call c (Auctions_methods "dailyAuctionStartTime" [])) ])
    (fun results =>
       match results with
       | [genesisTime; dailyAuctionStartTime] =>
           let tx :=
             METToken_methods "importMET"
               [ toHex originChain;
                 toHex destinationChain;
                 JArr [destinationMetAddress; from];
                 extraData;
                 JArr [previousBurnHash; currentBurnHash];
                 supply;
                 JArr [ blockTimestamp;
                        value;
                        fee;
                        currentTick;
                        genesisTime;
                        dailyMintable;
                        burnSequence;
                        dailyAuctionStartTime ];
                 root ] in
           let options := JObj [ ("from", from) ] in
           request (EvEstimateGas tx options) (estimateGas c tx options)
       | _ => ([], Rejected [])
       end).

Definition addAccount (web3 : Web3) (privateKey : jsval) : journal :=
  [EvAddAccount privateKey].

Definition getNextNonce (web3 : Web3) (from : jsval) : async jsval :=
  request (EvGetTransactionCount from "pending")
          (eth_getTransactionCount web3 from "pending").

Definition sendMet (getSigningLib : jsval -> Lib)
  (logTransaction : handle -> jsval -> option meta -> handle)
  (metaParsers : MetaParsers) (privateKey : jsval) (params : obj)
  : async handle :=
  let gasPrice := prop "gasPrice" params in
  let gas := prop "gas" params in
  let from := prop "from" params in
  let to := prop "to" params in
  let value := prop "value" params in
  let signingLib := getSigningLib privateKey in
  let met := createMetronome signingLib in
  then_
    (request EvSdkGetContracts (met_getContracts met))
    (fun contracts =>
       let arguments :=
         [ to; value;
           JObj [ ("from", from); ("gasPrice", gasPrice); ("gas", gas) ] ] in
       let h := met_sendMet met arguments in
       let template :=
         transfer metaParsers
           (JObj [ ("address", METToken_options_address contracts);
                   ("returnValues",
                    JObj [ ("_from", from); ("_to", to);
                           ("_value", value) ]) ]) in
       ([ EvSdkSendMet arguments;
          EvLogTransaction h from (Some template) ],
        Resolved (logTransaction h from (Some template)))).

Definition exportMet (web3 : Web3) (chain : Chain)
  (logTransaction : handle -> jsval -> option meta -> handle)
  (metaParsers : MetaParsers) (privateKey : jsval) (params : obj)
  : async handle :=
  let c := MetronomeContracts web3 chain in
  let destinationChain := prop "destinationChain" params in
  let destinationMetAddress := prop "destinationMetAddress" params in
  let extraData := prop "extraData" params in
  let fee := prop "fee" params in
  let from := prop "from" params in
  let gas := prop "gas" params in
  let gasPrice := prop "gasPrice" params in
  let to := prop "to" params in
  let value := prop "value" params in
  after (addAccount web3 privateKey)
    (then_
       (Promise_all
          [ getNextNonce web3 from;
            if truthy fee then plain fee
            else
              request (EvGetExportMetFee (JObj [ ("value", value) ]))
                      (getExportMetFee web3 chain
                         (JObj [ ("value", value) ])) ])
       (fun results =>
          match results with
          | [nonce; actualFee] =>
              let tx :=
                METToken_methods "export"
                  [ toHex destinationChain;
                    destinationMetAddress;
                    js_or to from;
                    value;
                    actualFee;
                    extraData ] in
              let options :=
                JObj [ ("from", from); ("gasPrice", gasPrice);
                       ("gas", gas); ("nonce", nonce) ] in
              let h := send c tx options in
              let template :=
                export metaParsers
                  (JObj [ ("address", from);
                          ("returnValues",
                           JObj [ ("amountToBurn", value);
                                  ("destinationChain",
                                   toHex destinationChain);
                                  ("destinationRecipientAddr",
                                   js_or to from);
                                  ("fee", actualFee) ]) ]) in
              ([ EvSend tx options;
                 EvLogTransaction h from (Some template) ],
               Resolved (logTransaction h from (Some template)))
          | _ => ([], Rejected [])
          end)).

Definition importMet (web3 : Web3) (chain : Chain)
  (logTransaction : handle -> jsval -> option meta -> handle)
  (metaParsers : MetaParsers) (privateKey : jsval) (params : obj)
  : async handle :=
  let c := MetronomeContracts web3 chain in
  let blockTimestamp := prop "blockTimestamp" params in
  let burnSequence := prop "burnSequence" params in
  let currentBurnHash := prop "currentBurnHash" params in
  let currentTick := prop "currentTick" params in
  let dailyMintable := prop "dailyMintable" params in
  let destinationChain := prop "destinationChain" params in
  let destinationMetAddress := prop "destinationMetAddress" params in
  let extraData := prop "extraData" params in
  let fee := prop "fee" params in
  let from := prop "from" params in
  let gas := prop "gas" params in
  let gasPrice := prop "gasPrice" params in
  let originChain := prop "originChain" params in
  let previousBurnHash := prop "previousBurnHash" params in
  let supply := prop "supply" params in
  let root := prop "root" params in
  let value := prop "value" params in
  after (addAccount web3 privateKey)
    (then_
       (Promise_all
          [ getNextNonce web3 from;
            request (EvCall (Auctions_methods "genesisTime" []))
                    (call c (Auctions_methods "genesisTime" []));
            request (EvCall (Auctions_methods "dailyAuctionStartTime" []))
                    (call c (Auctions_methods "dailyAuctionStartTime" [])) ])
       (fun results =>
          match results with
          | [nonce; genesisTime; dailyAuctionStartTime] =>
              let tx :=
                METToken_methods "importMET"
                  [ toHex originChain;
                    toHex destinationChain;
                    JArr [destinationMetAddress; from];
                    extraData;
                    JArr [previousBurnHash; currentBurnHash];
                    supply;
                    JArr [ blockTimestamp;
                           value;
                           fee;
                           currentTick;
                           genesisTime;
                           dailyMintable;
                           burnSequence;
                           dailyAuctionStartTime ];
                    root ] in
              let options :=
                JObj [ ("from", from); ("gasPrice", gasPrice);
                       ("gas", gas); ("nonce", nonce) ] in
              let h := send c tx options in
              let template :=
                importRequest metaParsers
                  (JObj [ ("returnValues",
                           JObj [ ("amountToImport", value);
                                  ("currentBurnHash", currentBurnHash);
                                  ("fee", fee);
                                  ("originChain", toHex originChain);
                                  ("destinationRecipientAddr", from) ]) ]) in
              ([ EvSend tx options;
                 EvLogTransaction h from (Some template) ],
               Resolved (logTransaction h from (Some template)))
          | _ => ([], Rejected [])
          end)).

(* =================================================================== *)
(** ** src/plugins/qtum-wallet/index.js *)
(* =================================================================== *)

(** [wallet.forChain(chainId.toString())], as far as it is used:
    [provider.fromPrivateKey(pk).wallet.send(to, amount, options)]. *)
Record WalletRPCProvider : Type := {
  fromPrivateKey_wallet_send : jsval -> jsval -> jsval -> jsval -> sendPromise
}.

(** The [plugins] object handed to [start]. *)
Record Plugins : Type := {
  qtum_qtumRPC : QtumRPC;
  transactionsList_logTransaction : handle -> jsval -> option meta -> handle
}.

(** [toPromiEvent] of ./to-promievent. *)
Variable toPromiEvent : QtumRPC -> sendPromise -> handle.

(** [api.sendCoin] of the plugin started with [walletRPCProvider] and
    [plugins].  The [debug] line only logs. *)
Definition sendCoin (walletRPCProvider : WalletRPCProvider)
  (plugins : Plugins) (privateKey : jsval) (params : obj)
  : journal * handle :=
  let from := prop "from" params in
  let to := prop "to" params in
  let value := prop "value" params in
  let feeRate := with_default (prop "feeRate" params) (JNum 402) in
  let amount := Number_parseInt value in
  let options := JObj [ ("feeRate", feeRate) ] in
  let sendPromise :=
    fromPrivateKey_wallet_send walletRPCProvider privateKey to amount
      options in
  let promiEvent := toPromiEvent (qtum_qtumRPC plugins) sendPromise in
  ([ EvWalletSend privateKey to amount options;
     EvLogTransaction promiEvent from None ],
   transactionsList_logTransaction plugins promiEvent from None).

(* =================================================================== *)
(** ** Reading a journal *)
(* =================================================================== *)

(** The transactions broadcast, with their send options. *)
Definition broadcasts (j : journal) : list (txcall * jsval) :=
  flat_map (fun e => match e with
                     | EvSend tx o => [(tx, o)]
                     | _ => []
                     end) j.

(** The gas estimates requested from a contract. *)
Definition estimates (j : journal) : list (txcall * jsval) :=
  flat_map (fun e => match e with
                     | EvEstimateGas tx o => [(tx, o)]
                     | _ => []
                     end) j.

(** The argument lists handed to the SDK's [estimateExportMetGas]. *)
Definition sdk_estimates (j : journal) : list (list jsval) :=
  flat_map (fun e => match e with
                     | EvSdkEstimateExportMetGas a => [a]
                     | _ => []
                     end) j.

(** The argument lists handed to the SDK's [sendMet]. *)
Definition sdk_sends (j : journal) : list (list jsval) :=
  flat_map (fun e => match e with
                     | EvSdkSendMet a => [a]
                     | _ => []
                     end) j.

(** The arguments of the fee-estimation requests. *)
Definition fee_requests (j : journal) : list jsval :=
  flat_map (fun e => match e with
                     | EvGetExportMetFee a => [a]
                     | _ => []
                     end) j.

(** The Qtum wallet sends: private key, recipient, amount, options. *)
Definition wallet_sends (j : journal)
  : list (jsval * jsval * jsval * jsval) :=
  flat_map (fun e => match e with
                     | EvWalletSend k t a o => [(k, t, a, o)]
                     | _ => []
                     end) j.

(** The amounts of the Qtum wallet sends. *)
Definition wallet_amounts (j : journal) : list jsval :=
  flat_map (fun e => match e with
                     | EvWalletSend _ _ a _ => [a]
                     | _ => []
                     end) j.

(** The calls of [logTransaction]: handle, address, template. *)
Definition logged (j : journal) : list (handle * jsval * option meta) :=
  flat_map (fun e => match e with
                     | EvLogTransaction h a t => [(h, a, t)]
                     | _ => []
                     end) j.

(** Is [e] the nonce request for [from]'s pending transaction count? *)
Definition is_nonce_request (e : event) : bool :=
  match e with
  | EvGetTransactionCount _ tag => String.eqb tag "pending"
  | _ => false
  end.

End Model.


Arguments EvAddAccount {handle meta} privateKey.
Arguments EvGetTransactionCount {handle meta} address blockTag.
Arguments EvCall {handle meta} tx.
Arguments EvSend {handle meta} tx options.
Arguments EvEstimateGas {handle meta} tx options.
Arguments EvGetExportMetFee {handle meta} arg.
Arguments EvSdkGetContracts {handle meta}.
Arguments EvSdkSendMet {handle meta} arguments.
Arguments EvSdkEstimateExportMetGas {handle meta} arguments.
Arguments EvWalletSend {handle meta} privateKey to amount options.
Arguments EvLogTransaction {handle meta} h address template.
Arguments journal handle meta : clear implicits.
Arguments async handle meta A : clear implicits.
Arguments Promise_all {handle meta} ps.
Arguments then_ {handle meta A B} p callback.
Arguments estimateExportMetGas {handle meta Lib} createMetronome coin params.
Arguments estimateImportMetGas {handle meta Chain} toHex MetronomeContracts
  web3 chain params.
Arguments getNextNonce {handle meta} web3 from.
Arguments sendMet {handle meta Lib} createMetronome getSigningLib
  logTransaction metaParsers privateKey params.
Arguments exportMet {handle meta Chain} toHex MetronomeContracts
  getExportMetFee web3 chain logTransaction metaParsers privateKey params.
Arguments importMet {handle meta Chain} toHex MetronomeContracts
  web3 chain logTransaction metaParsers privateKey params.
Arguments sendCoin {handle meta sendPromise QtumRPC} toPromiEvent
  walletRPCProvider plugins privateKey params.
Arguments broadcasts {handle meta} j.
Arguments estimates {handle meta} j.
Arguments sdk_estimates {handle meta} j.
Arguments sdk_sends {handle meta} j.
Arguments fee_requests {handle meta} j.
Arguments wallet_sends {handle meta} j.
Arguments wallet_amounts {handle meta} j.
Arguments logged {handle meta} j.
Arguments is_nonce_request {handle meta} e.
Arguments call {handle} c tx.
Arguments send {handle} c tx options.
Arguments estimateGas {handle} c tx options.
Arguments met_getContracts {handle} m.
Arguments met_sendMet {handle} m arguments.
Arguments met_estimateExportMetGas {handle} m arguments.
Arguments lib {Lib} c.
Arguments transfer {meta} m arg.
Arguments export {meta} m arg.
Arguments importRequest {meta} m arg.
Arguments fromPrivateKey_wallet_send {sendPromise} w privateKey to amount
  options.
Arguments qtum_qtumRPC {handle meta QtumRPC} p.
Arguments transactionsList_logTransaction {handle meta QtumRPC} p h address
  template.

(** Property read on a value that may or may not be an object. *)
Definition get (k : string) (v : jsval) : jsval :=
  match v with
  | JObj o => prop k o
  | _ => JUndefined
  end.

(** The [i]-th argument of a call ([undefined] past the end). *)
Definition arg_at (i : nat) (tx : txcall) : jsval := nth i (args tx) JUndefined.

(* ===================================================================== *)
(** ** Statements as the specification words them *)
(* ===================================================================== *)

(** The ImportProof tuple as the specification describes it: the two auction
    values read from the destination chain, every other field taken from the
    caller's parameters as it is. *)
Definition spec_ImportProof (params : obj)
  (genesisTime dailyAuctionStartTime : jsval) : list jsval :=
  [ prop "originChain" params;
    prop "destinationChain" params;
    JArr [prop "destinationMetAddress" params; prop "from" params];
    prop "extraData" params;
    JArr [prop "previousBurnHash" params; prop "currentBurnHash" params];
    prop "supply" params;
    JArr [ prop "blockTimestamp" params;
           prop "value" params;
           prop "fee" params;
           prop "currentTick" params;
           genesisTime;
           prop "dailyMintable" params;
           prop "burnSequence" params;
           dailyAuctionStartTime ];
    prop "root" params ].

(** The argument sequence the specification gives for both the export send
    and its gas estimate. *)
Definition spec_export_sequence (params : obj) : list jsval :=
  [ prop "destinationChain" params;
    prop "destinationMetAddress" params;
    js_or (prop "to" params) (prop "from" params);
    prop "value" params;
    prop "fee" params;
    prop "extraData" params ].


(** The decimal digits, by character code. *)
Definition is_digit (c : ascii) : Prop := 48 <= code c <= 57.

(* ===================================================================== *)
(** ** Concrete collaborators, for running the code on examples *)
(* ===================================================================== *)

Module Demo.

(** A symbolic handle: which broadcast it came from and how it was
    wrapped. *)
Inductive handle : Type :=
| Sent (tx : txcall) (options : jsval)
| SdkSent (arguments : list jsval)
| QtumSent (privateKey to amount options : jsval)
| Tracked (h : handle) (address : jsval) (template : option jsval).

Definition logTransaction : handle -> jsval -> option jsval -> handle :=
  Tracked.

Definition metaParsers : MetaParsers jsval :=
  {| transfer := fun a => JArr [JStr "transfer"; a];
     export := fun a => JArr [JStr "export"; a];
     importRequest := fun a => JArr [JStr "importRequest"; a] |}.

Definition hex_digit (n : Z) : ascii :=
  ascii_of_N (Z.to_N (if n <? 10 then 48 + n else 87 + n)).

(** Two hexadecimal digits per byte. *)
Fixpoint hex_bytes (s : string) : string :=
  match s with
  | EmptyString => EmptyString
  | String c r =>
      String (hex_digit (code c / 16))
        (String (hex_digit (code c mod 16)) (hex_bytes r))
  end.

(** A stand-in for web3-utils' [toHex] that agrees with it on the strings
    the runs below pass: a chain name such as ["ETH"], neither 0x-prefixed
    nor numeric, becomes ["0x"] followed by the hexadecimal form of its
    bytes (["0x455448"]); a 0x-prefixed string that is not an address is
    returned as it is. *)
Definition toHex (v : jsval) : jsval :=
  match v with
  | JStr s =>
      if String.prefix "0x" s then v else JStr ("0x" ++ hex_bytes s)%string
  | _ => v
  end.

(** A node whose pending transaction count answers as given. *)
Definition web3 (pending : settled jsval) : Web3 :=
  {| eth_getTransactionCount := fun _ _ => pending |}.

(** A chain is described by what its auction contract answers. *)
Record Chain : Type := {
  genesisTime : settled jsval;
  dailyAuctionStartTime : settled jsval
}.

Definition MetronomeContracts (w : Web3) (ch : Chain) : Contracts handle :=
  {| call := fun tx =>
               if String.eqb (method tx) "genesisTime" then genesisTime ch
               else dailyAuctionStartTime ch;
     send := Sent;
     estimateGas := fun _ _ => Resolved (JNum 150000) |}.

Definition getExportMetFee (estimate : settled jsval)
  (w : Web3) (ch : Chain) (arg : jsval) : settled jsval := estimate.

Definition createMetronome (address : settled jsval) (l : unit)
  : Metronome handle :=
  {| met_getContracts :=
       match address with
       | Resolved a => Resolved {| METToken_options_address := a |}
       | Rejected rs => Rejected rs
       end;
     met_sendMet := SdkSent;
     met_estimateExportMetGas := fun _ => Resolved (JNum 90000) |}.

Definition getSigningLib (privateKey : jsval) : unit := tt.

Definition walletRPCProvider : WalletRPCProvider handle :=
  {| fromPrivateKey_wallet_send := QtumSent |}.

Definition toPromiEvent (rpc : unit) (p : handle) : handle := p.

Definition plugins : Plugins handle jsval unit :=
  {| qtum_qtumRPC := tt;
     transactionsList_logTransaction := logTransaction |}.

Definition healthy : Chain :=
  {| genesisTime := Resolved (JNum 1529280060);
     dailyAuctionStartTime := Resolved (JNum 1529883999) |}.

Definition unreachable : Chain :=
  {| genesisTime := Rejected [JStr "connection lost"];
     dailyAuctionStartTime := Resolved (JNum 1529883999) |}.

Definition importParams : obj :=
  [ ("blockTimestamp", JNum 1550000000);
    ("burnSequence", JNum 3);
    ("currentBurnHash", JStr "0xbb");
    ("currentTick", JNum 120);
    ("dailyMintable", JNum 2880);
    ("destinationChain", JStr "ETC");
    ("destinationMetAddress", JStr "0xd357");
    ("extraData", JStr "0x00");
    ("fee", JNum 5);
    ("from", JStr "0xf00d");
    ("gas", JNum 200000);
    ("gasPrice", JStr "1000000000");
    ("originChain", JStr "ETH");
    ("previousBurnHash", JStr "0xaa");
    ("supply", JNum 1000000);
    ("root", JStr "0x7007");
    ("value", JNum 1000) ].

(** An export of 1000 units with [fee: 0]. *)
Definition exportParams : obj :=
  [ ("destinationChain", JStr "ETC");
    ("destinationMetAddress", JStr "0xd357");
    ("extraData", JStr "0x00");
    ("fee", JNum 0);
    ("from", JStr "0xf00d");
    ("gas", JNum 200000);
    ("gasPrice", JStr "1000000000");
    ("value", JNum 1000) ].

(** The same export with the fee chosen by the caller. *)
Definition exportParamsWithFee : obj :=
  [ ("destinationChain", JStr "ETC");
    ("destinationMetAddress", JStr "0xd357");
    ("extraData", JStr "0x00");
    ("fee", JNum 3);
    ("from", JStr "0xf00d");
    ("gas", JNum 200000);
    ("gasPrice", JStr "1000000000");
    ("to", JStr "0xbeef");
    ("value", JNum 1000) ].

Definition key : jsval := JStr "0x4b1d".

(** A transfer of Qtum with a fractional amount and no feeRate, one with
    an amount that is not a number, and one with a feeRate. *)
Definition coinParams : obj :=
  [ ("from", JStr "qTb9"); ("to", JStr "qUbx"); ("value", JStr "12.75") ].
Definition coinParamsRate : obj :=
  [ ("from", JStr "qTb9"); ("to", JStr "qUbx"); ("value", JStr "1000");
    ("feeRate", JNum 500) ].

(** The node answers 12 for the pending transaction count. *)
Definition node : Web3 := web3 (Resolved (JNum 12)).

(** The fee estimator answers 7. *)
Definition porter : Web3 -> Chain -> jsval -> settled jsval :=
  getExportMetFee (Resolved (JNum 7)).

Definition sdk : unit -> Metronome handle :=
  createMetronome (Resolved (JStr "0x3e7")).

Definition import_ok : async handle jsval handle :=
  importMet toHex MetronomeContracts node healthy logTransaction
            metaParsers key importParams.
Definition import_ko : async handle jsval handle :=
  importMet toHex MetronomeContracts node unreachable logTransaction
            metaParsers key importParams.
Definition import_estimate : async handle jsval jsval :=
  estimateImportMetGas toHex MetronomeContracts node healthy importParams.
Definition export_auto : async handle jsval handle :=
  exportMet toHex MetronomeContracts porter node healthy logTransaction
            metaParsers key exportParams.
Definition export_fee : async handle jsval handle :=
  exportMet toHex MetronomeContracts porter node healthy logTransaction
            metaParsers key exportParamsWithFee.
Definition export_estimate_auto : async handle jsval jsval :=
  estimateExportMetGas sdk {| lib := tt |} exportParams.
Definition export_estimate_fee : async handle jsval jsval :=
  estimateExportMetGas sdk {| lib := tt |} exportParamsWithFee.
Definition coin_run (params : obj) : journal handle jsval * handle :=
  sendCoin toPromiEvent walletRPCProvider plugins key params.

(** The call both import paths build on [importParams]. *)
Definition importMET_call : txcall :=
  METToken_methods "importMET"
    [ JStr "0x455448"; JStr "0x455443";
      JArr [JStr "0xd357"; JStr "0xf00d"];
      JStr "0x00";
      JArr [JStr "0xaa"; JStr "0xbb"];
      JNum 1000000;
      JArr [ JNum 1550000000; JNum 1000; JNum 5; JNum 120;
             JNum 1529280060; JNum 2880; JNum 3; JNum 1529883999 ];
      JStr "0x7007" ].

Definition send_options : jsval :=
  JObj [ ("from", JStr "0xf00d"); ("gasPrice", JStr "1000000000");
         ("gas", JNum 200000); ("nonce", JNum 12) ].

(** The export call built on [exportParamsWithFee]. *)
Definition export_call : txcall :=
  METToken_methods "export"
    [ JStr "0x455443"; JStr "0xd357"; JStr "0xbeef"; JNum 1000; JNum 3;
      JStr "0x00" ].

(** What the SDK's gas estimate receives on [exportParamsWithFee]. *)
Definition export_estimate_arguments : list jsval :=
  [ JObj [ ("destChain", JStr "ETC"); ("destMetronomeAddr", JStr "0xd357") ];
    JStr "0xbeef"; JNum 1000; JNum 3; JStr "0x00";
    JObj [ ("from", JStr "0xf00d") ] ].

End Demo.

(* ===================================================================== *)
(** ** More readers of journals and values *)
(* ===================================================================== *)

(** The private keys added to the web3 wallet. *)
Definition accounts_added {handle meta : Type} (j : journal handle meta)
  : list jsval :=
  flat_map (fun e => match e with
                     | EvAddAccount k => [k]
                     | _ => []
                     end) j.



(** The reasons a promise can reject with; none when it resolves. *)
Definition reasons {A : Type} (s : settled A) : list jsval :=
  match s with
  | Resolved _ => []
  | Rejected rs => rs
  end.

(** Array read [v[i]]. *)
Definition element (i : nat) (v : jsval) : jsval :=
  match v with
  | JArr xs => nth i xs JUndefined
  | _ => JUndefined
  end.

(** Does the string end here, or go on with a character that is neither a
    decimal digit nor [x] / [X]? *)
Definition ends_number (t : string) : bool :=
  match t with
  | EmptyString => true
  | String c _ =>
      negb ((48 <=? code c) && (code c <=? 57))
      && negb ((code c =? 120) || (code c =? 88))
  end.

(** Hexadecimal form of a natural number, in lower case. *)
Definition hexadecimal (n : N) : string :=
  HexadecimalString.NilZero.string_of_uint (N.to_hex_uint n).

(* ===================================================================== *)
(** ** src/plugins/qtum-wallet/index.js: the plugin object *)
(* ===================================================================== *)

(** [value.toString()]: a method call, which throws a TypeError on
    [undefined] and [null]; [None] stands for that throw. *)
Definition toString_method (v : jsval) : option string :=
  match v with
  | JUndefined | JNull => None
  | _ => Some (ToString v)
  end.

(** What [start] can throw. *)
Inductive thrown : Type := TypeError.

Section QtumPlugin.

Variables handle meta sendPromise QtumRPC : Type.
(** The type of [wallet.getPrivateKey], which [start] hands on untouched. *)
Variable PrivateKeyFn : Type.

(** The object [wallet.forChain(name)] returns, as far as the plugin uses
    it: [fromPrivateKey(pk).wallet.send(...)] and
    [fromSeed(seed).wallet.address]. *)
Record ChainWallet : Type := {
  chain_rpc : WalletRPCProvider sendPromise;
  fromSeed_wallet_address : jsval -> jsval
}.

(** The module ./wallet. *)
Record WalletModule : Type := {
  forChain : string -> ChainWallet;
  getPrivateKey : PrivateKeyFn
}.

(** The object [start] returns. *)
Record CorePluginInterface : Type := {
  api_createAddress : jsval -> jsval;
  api_createPrivateKey : PrivateKeyFn;
  api_sendCoin : jsval -> obj -> journal handle meta * handle;
  events : list string;
  name : string
}.

Variable wallet : WalletModule.
Variable toPromiEvent : QtumRPC -> sendPromise -> handle.

(** [start({ config, plugins })].  The [debug] line only logs. *)
Definition start (config : obj) (plugins : Plugins handle meta QtumRPC)
  : thrown + CorePluginInterface :=
  let chainId := prop "chainId" config in
  match toString_method chainId with
  | None => inl TypeError
  | Some chainName =>
      let walletRPCProvider := forChain wallet chainName in
      inr {| api_createAddress :=
               fun seed => fromSeed_wallet_address walletRPCProvider seed;
             api_createPrivateKey := getPrivateKey wallet;
             api_sendCoin :=
               sendCoin toPromiEvent (chain_rpc walletRPCProvider) plugins;
             events := ["wallet-error"; "wallet-state-changed"];
             name := "wallet" |}
  end.

(** [stop()] has an empty body. *)
Definition stop : unit := tt.

(** [createPlugin()] returns [{ start, stop }]. *)
Record CorePlugin : Type := {
  plugin_start :
    obj -> Plugins handle meta QtumRPC -> thrown + CorePluginInterface;
  plugin_stop : unit
}.

Definition createPlugin : CorePlugin :=
  {| plugin_start := start; plugin_stop := stop |}.

End QtumPlugin.

Arguments chain_rpc {sendPromise} c.
Arguments fromSeed_wallet_address {sendPromise} c seed.
Arguments forChain {sendPromise PrivateKeyFn} w chainName.
Arguments getPrivateKey {sendPromise PrivateKeyFn} w.
Arguments api_createAddress {handle meta PrivateKeyFn} c seed.
Arguments api_createPrivateKey {handle meta PrivateKeyFn} c.
Arguments api_sendCoin {handle meta PrivateKeyFn} c privateKey params.
Arguments events {handle meta PrivateKeyFn} c.
Arguments name {handle meta PrivateKeyFn} c.
Arguments start {handle meta sendPromise QtumRPC PrivateKeyFn} wallet
  toPromiEvent config plugins.
Arguments createPlugin {handle meta sendPromise QtumRPC PrivateKeyFn} wallet
  toPromiEvent.
Arguments plugin_start {handle meta QtumRPC PrivateKeyFn} c config plugins.

(** More concrete runs. *)
Module Samples.

(** A node that cannot be reached for the pending transaction count. *)
Definition deaf : Web3 := Demo.web3 (Rejected [JStr "no node"]).

Definition import_no_nonce : async Demo.handle jsval Demo.handle :=
  importMet Demo.toHex Demo.MetronomeContracts deaf Demo.unreachable
            Demo.logTransaction Demo.metaParsers Demo.key Demo.importParams.
Definition export_no_nonce : async Demo.handle jsval Demo.handle :=
  exportMet Demo.toHex Demo.MetronomeContracts Demo.porter deaf Demo.healthy
            Demo.logTransaction Demo.metaParsers Demo.key Demo.exportParams.

Definition import_estimate_ko : async Demo.handle jsval jsval :=
  estimateImportMetGas Demo.toHex Demo.MetronomeContracts Demo.node
                       Demo.unreachable Demo.importParams.

(** An SDK that cannot load its contracts. *)
Definition broken_sdk : unit -> Metronome Demo.handle :=
  Demo.createMetronome (Rejected [JStr "no contracts"]).

Definition transferParams : obj :=
  [ ("from", JStr "0xf00d"); ("to", JStr "0xbeef"); ("value", JNum 250);
    ("gas", JNum 90000); ("gasPrice", JStr "1000000000") ].

Definition transfer_ok : async Demo.handle jsval Demo.handle :=
  sendMet Demo.sdk Demo.getSigningLib Demo.logTransaction Demo.metaParsers
          Demo.key transferParams.
Definition transfer_ko : async Demo.handle jsval Demo.handle :=
  sendMet broken_sdk Demo.getSigningLib Demo.logTransaction Demo.metaParsers
          Demo.key transferParams.

(** A Qtum wallet module whose chain wallets remember their chain name in
    the addresses they derive. *)
Definition wallet : WalletModule Demo.handle unit :=
  {| forChain := fun chainName =>
       {| chain_rpc := Demo.walletRPCProvider;
          fromSeed_wallet_address :=
            fun seed => JArr [JStr chainName; seed] |};
     getPrivateKey := tt |}.


(** Amounts as a user may type them. *)
Definition coinParamsExponent : obj :=
  [ ("from", JStr "qTb9"); ("to", JStr "qUbx"); ("value", JStr "1e18") ].
Definition coinParamsNegative : obj :=
  [ ("from", JStr "qTb9"); ("to", JStr "qUbx"); ("value", JNum (-5)) ].
Definition coinParamsHex : obj :=
  [ ("from", JStr "qTb9"); ("to", JStr "qUbx"); ("value", JStr "0xff") ].



End Samples.

(* ===================================================================== *)
(** ** Properties *)
(* ===================================================================== *)

(** Splits [pre ++ e :: post = e1 :: ... :: en :: nil] into its finitely many
    cases. *)
Ltac split_journal H :=
  repeat match type of H with
         | ?pre ++ _ :: _ = _ =>
             let e := fresh "e" in
             destruct pre as [|e pre]; cbn [app] in H;
             [ try discriminate H
             | try discriminate H; injection H as -> H ]
         end.

Section Properties.

Context {handle meta Chain Lib sendPromise QtumRPC : Type}.
Variable toHex : jsval -> jsval.
Variable MetronomeContracts : Web3 -> Chain -> Contracts handle.
Variable createMetronome : Lib -> Metronome handle.
Variable getExportMetFee : Web3 -> Chain -> jsval -> settled jsval.
Variable toPromiEvent : QtumRPC -> sendPromise -> handle.
Variable logTransaction : handle -> jsval -> option meta -> handle.
Variable metaParsers : MetaParsers meta.

(** *** importMet, step by step *)

(** When the nonce and both auction values arrive, importMet broadcasts one
    transaction and hands its handle to the tracker. *)
Lemma importMet_resolved web3 chain privateKey params
      nonce genesisTime dailyAuctionStartTime :
  let c := MetronomeContracts web3 chain in
  let from := prop "from" params in
  eth_getTransactionCount web3 from "pending" = Resolved nonce ->
  call c (Auctions_methods "genesisTime" []) = Resolved genesisTime ->
  call c (Auctions_methods "dailyAuctionStartTime" [])
    = Resolved dailyAuctionStartTime ->
  let tx :=
    METToken_methods "importMET"
      [ toHex (prop "originChain" params);
        toHex (prop "destinationChain" params);
        JArr [prop "destinationMetAddress" params; from];
        prop "extraData" params;
        JArr [prop "previousBurnHash" params;
              prop "currentBurnHash" params];
        prop "supply" params;
        JArr [ prop "blockTimestamp" params;
               prop "value" params;
               prop "fee" params;
               prop "currentTick" params;
               genesisTime;
               prop "dailyMintable" params;
               prop "burnSequence" params;
               dailyAuctionStartTime ];
        prop "root" params ] in
  let options :=
    JObj [ ("from", from); ("gasPrice", prop "gasPrice" params);
           ("gas", prop "gas" params); ("nonce", nonce) ] in
  let template :=
    importRequest metaParsers
      (JObj [ ("returnValues",
               JObj [ ("amountToImport", prop "value" params);
                      ("currentBurnHash", prop "currentBurnHash" params);
                      ("fee", prop "fee" params);
                      ("originChain", toHex (prop "originChain" params));
                      ("destinationRecipientAddr", from) ]) ]) in
  importMet toHex MetronomeContracts web3 chain logTransaction metaParsers
            privateKey params
  = ([ EvAddAccount privateKey;
       EvGetTransactionCount from "pending";
       EvCall (Auctions_methods "genesisTime" []);
       EvCall (Auctions_methods "dailyAuctionStartTime" []);
       EvSend tx options;
       EvLogTransaction (send c tx options) from (Some template) ],
     Resolved (logTransaction (send c tx options) from (Some template))).
Proof.
  intros c from Hn Hg Hd tx options template.
  unfold importMet, getNextNonce, request, then_, after.
  cbn [Promise_all]. fold c. fold from.
  rewrite Hn, Hg, Hd. reflexivity.
Qed.

(** When one of the three reads fails, importMet stops after issuing
    them. *)
Lemma importMet_rejected web3 chain privateKey params :
  let c := MetronomeContracts web3 chain in
  let from := prop "from" params in
  is_rejected (eth_getTransactionCount web3 from "pending")
  || is_rejected (call c (Auctions_methods "genesisTime" []))
  || is_rejected (call c (Auctions_methods "dailyAuctionStartTime" []))
     = true ->
  exists reasons,
    importMet toHex MetronomeContracts web3 chain logTransaction metaParsers
              privateKey params
    = ([ EvAddAccount privateKey;
         EvGetTransactionCount from "pending";
         EvCall (Auctions_methods "genesisTime" []);
         EvCall (Auctions_methods "dailyAuctionStartTime" []) ],
       Rejected reasons).
Proof.
  intros c from H.
  unfold importMet, getNextNonce, request, then_, after.
  cbn [Promise_all]. fold c. fold from. fold c in H. fold from in H.
  destruct (eth_getTransactionCount web3 from "pending");
    destruct (call c (Auctions_methods "genesisTime" []));
    destruct (call c (Auctions_methods "dailyAuctionStartTime" []));
    cbn in H; try discriminate H; eexists; reflexivity.
Qed.

(** Every run of importMet is one of the two above. *)
Lemma importMet_cases web3 chain params :
  let c := MetronomeContracts web3 chain in
  let from := prop "from" params in
  (exists nonce genesisTime dailyAuctionStartTime,
      eth_getTransactionCount web3 from "pending" = Resolved nonce
      /\ call c (Auctions_methods "genesisTime" []) = Resolved genesisTime
      /\ call c (Auctions_methods "dailyAuctionStartTime" [])
         = Resolved dailyAuctionStartTime)
  \/ is_rejected (eth_getTransactionCount web3 from "pending")
     || is_rejected (call c (Auctions_methods "genesisTime" []))
     || is_rejected (call c (Auctions_methods "dailyAuctionStartTime" []))
     = true.
Proof.
  intros c from.
  destruct (eth_getTransactionCount web3 from "pending") as [n|];
    destruct (call c (Auctions_methods "genesisTime" [])) as [g|];
    destruct (call c (Auctions_methods "dailyAuctionStartTime" [])) as [d|];
    cbn; auto.
  left. exists n, g, d. auto.
Qed.

(** C1. In every run of importMet the two auction reads, genesisTime and
    dailyAuctionStartTime, are issued before the import transaction is
    built, signed and sent; and when either read is rejected, importMet
    rejects, nothing is broadcast and nothing reaches the tracker. *)
Theorem importMet_reads_context_first web3 chain privateKey params :
  let c := MetronomeContracts web3 chain in
  let run :=
    importMet toHex MetronomeContracts web3 chain logTransaction
              metaParsers privateKey params in
  (forall pre tx options post,
      fst run = pre ++ EvSend tx options :: post ->
      In (EvCall (Auctions_methods "genesisTime" [])) pre
      /\ In (EvCall (Auctions_methods "dailyAuctionStartTime" [])) pre)
  /\ (is_rejected (call c (Auctions_methods "genesisTime" []))
      || is_rejected (call c (Auctions_methods "dailyAuctionStartTime" []))
      = true ->
      is_rejected (snd run) = true
      /\ broadcasts (fst run) = []
      /\ logged (fst run) = []).
Proof.
  intros c run. split.
  - intros pre tx options post H.
    destruct (importMet_cases web3 chain params)
      as [(n & g & d & Hn & Hg & Hd) | Hrej].
    + unfold run in H.
      rewrite (importMet_resolved web3 chain privateKey params n g d Hn Hg Hd)
        in H.
      cbn [fst] in H. symmetry in H. split_journal H.
      split; cbn; auto.
    + destruct (importMet_rejected web3 chain privateKey params Hrej)
        as [rs E].
      unfold run in H. rewrite E in H. cbn [fst] in H.
      symmetry in H. split_journal H.
  - intros Hctx.
    assert (Hrej :
      is_rejected (eth_getTransactionCount web3 (prop "from" params) "pending")
      || is_rejected (call c (Auctions_methods "genesisTime" []))
      || is_rejected (call c (Auctions_methods "dailyAuctionStartTime" []))
      = true).
    { rewrite <- orb_assoc. rewrite Hctx. apply orb_true_r. }
    destruct (importMet_rejected web3 chain privateKey params Hrej)
      as [rs E].
    unfold run. rewrite E. cbn. auto.
Qed.

(** C2 (amended). When the nonce and the two auction values arrive,
    importMet invokes METToken.importMET exactly once, with the tuple
    (toHex(originChain), toHex(destinationChain),
     [destinationMetAddress, from], extraData,
     [previousBurnHash, currentBurnHash], supply,
     [blockTimestamp, value, fee, currentTick, genesisTime, dailyMintable,
      burnSequence, dailyAuctionStartTime], root):
    genesisTime and dailyAuctionStartTime are the values just read, the two
    chain identifiers are hex-encoded with toHex, every other field is the
    caller's parameter as it is; the handle of that send goes to
    logTransaction with a template built by metaParsers.importRequest. *)
Theorem importMet_sends_ImportProof web3 chain privateKey params
        nonce genesisTime dailyAuctionStartTime :
  let c := MetronomeContracts web3 chain in
  let from := prop "from" params in
  let run :=
    importMet toHex MetronomeContracts web3 chain logTransaction
              metaParsers privateKey params in
  eth_getTransactionCount web3 from "pending" = Resolved nonce ->
  call c (Auctions_methods "genesisTime" []) = Resolved genesisTime ->
  call c (Auctions_methods "dailyAuctionStartTime" [])
    = Resolved dailyAuctionStartTime ->
  exists template_argument,
    let options :=
      JObj [ ("from", from); ("gasPrice", prop "gasPrice" params);
             ("gas", prop "gas" params); ("nonce", nonce) ] in
    let tx :=
      METToken_methods "importMET"
        [ toHex (prop "originChain" params);
          toHex (prop "destinationChain" params);
          JArr [prop "destinationMetAddress" params; from];
          prop "extraData" params;
          JArr [prop "previousBurnHash" params;
                prop "currentBurnHash" params];
          prop "supply" params;
          JArr [ prop "blockTimestamp" params;
                 prop "value" params;
                 prop "fee" params;
                 prop "currentTick" params;
                 genesisTime;
                 prop "dailyMintable" params;
                 prop "burnSequence" params;
                 dailyAuctionStartTime ];
          prop "root" params ] in
    broadcasts (fst run) = [(tx, options)]
    /\ logged (fst run)
       = [(send c tx options, from,
           Some (importRequest metaParsers template_argument))]
    /\ snd run
       = Resolved (logTransaction (send c tx options) from
                     (Some (importRequest metaParsers template_argument))).
Proof.
  intros c from run Hn Hg Hd. unfold run.
  rewrite (importMet_resolved web3 chain privateKey params _ _ _ Hn Hg Hd).
  eexists. cbn. repeat split; reflexivity.
Qed.

(** C10. When importMet reaches the tracker, the argument of
    metaParsers.importRequest is { returnValues: { amountToImport: value,
    currentBurnHash, fee, originChain: toHex(originChain),
    destinationRecipientAddr: from } }: the recipient is the local [from]
    whatever destinationMetAddress or [to] the caller passes, and value,
    currentBurnHash and fee are the caller's, unchanged. *)
Theorem importMet_meta_template web3 chain privateKey params
        nonce genesisTime dailyAuctionStartTime :
  let c := MetronomeContracts web3 chain in
  let from := prop "from" params in
  let run :=
    importMet toHex MetronomeContracts web3 chain logTransaction
              metaParsers privateKey params in
  eth_getTransactionCount web3 from "pending" = Resolved nonce ->
  call c (Auctions_methods "genesisTime" []) = Resolved genesisTime ->
  call c (Auctions_methods "dailyAuctionStartTime" [])
    = Resolved dailyAuctionStartTime ->
  map snd (logged (fst run))
  = [ Some
        (importRequest metaParsers
           (JObj
              [ ("returnValues",
                 JObj
                   [ ("amountToImport", prop "value" params);
                     ("currentBurnHash", prop "currentBurnHash" params);
                     ("fee", prop "fee" params);
                     ("originChain", toHex (prop "originChain" params));
                     ("destinationRecipientAddr", from) ]) ])) ].
Proof.
  intros c from run Hn Hg Hd. unfold run.
  rewrite (importMet_resolved web3 chain privateKey params _ _ _ Hn Hg Hd).
  reflexivity.
Qed.

(** *** exportMet, step by step *)

(** When the nonce and the fee arrive, exportMet broadcasts one transaction
    and hands its handle to the tracker.  The fee request is issued only
    for a falsy [fee]. *)
Lemma exportMet_resolved web3 chain privateKey params nonce actualFee :
  let c := MetronomeContracts web3 chain in
  let from := prop "from" params in
  let fee := prop "fee" params in
  let request_argument := JObj [ ("value", prop "value" params) ] in
  eth_getTransactionCount web3 from "pending" = Resolved nonce ->
  (if truthy fee then Resolved fee
   else getExportMetFee web3 chain request_argument) = Resolved actualFee ->
  let tx :=
    METToken_methods "export"
      [ toHex (prop "destinationChain" params);
        prop "destinationMetAddress" params;
        js_or (prop "to" params) from;
        prop "value" params;
        actualFee;
        prop "extraData" params ] in
  let options :=
    JObj [ ("from", from); ("gasPrice", prop "gasPrice" params);
           ("gas", prop "gas" params); ("nonce", nonce) ] in
  let template :=
    export metaParsers
      (JObj [ ("address", from);
              ("returnValues",
               JObj [ ("amountToBurn", prop "value" params);
                      ("destinationChain",
                       toHex (prop "destinationChain" params));
                      ("destinationRecipientAddr",
                       js_or (prop "to" params) from);
                      ("fee", actualFee) ]) ]) in
  exportMet toHex MetronomeContracts getExportMetFee web3 chain
            logTransaction metaParsers privateKey params
  = ([ EvAddAccount privateKey;
       EvGetTransactionCount from "pending" ]
     ++ (if truthy fee then [] else [EvGetExportMetFee request_argument])
     ++ [ EvSend tx options;
          EvLogTransaction (send c tx options) from (Some template) ],
     Resolved (logTransaction (send c tx options) from (Some template))).
Proof.
  intros c from fee request_argument Hn Hf tx options template.
  unfold exportMet, getNextNonce, request, plain, then_, after.
  fold c. fold from. fold fee. fold request_argument.
  destruct (truthy fee); cbn [Promise_all]; rewrite Hn.
  - injection Hf as <-. reflexivity.
  - rewrite Hf. reflexivity.
Qed.

(** When the nonce or the fee request fails, exportMet stops after issuing
    them. *)
Lemma exportMet_rejected web3 chain privateKey params :
  let from := prop "from" params in
  let fee := prop "fee" params in
  let request_argument := JObj [ ("value", prop "value" params) ] in
  is_rejected (eth_getTransactionCount web3 from "pending")
  || is_rejected (if truthy fee then Resolved fee
                  else getExportMetFee web3 chain request_argument)
     = true ->
  exists reasons,
    exportMet toHex MetronomeContracts getExportMetFee web3 chain
              logTransaction metaParsers privateKey params
    = ([ EvAddAccount privateKey;
         EvGetTransactionCount from "pending" ]
       ++ (if truthy fee then [] else [EvGetExportMetFee request_argument]),
       Rejected reasons).
Proof.
  intros from fee request_argument H.
  unfold exportMet, getNextNonce, request, plain, then_, after.
  fold from. fold fee. fold request_argument.
  destruct (truthy fee); cbn [Promise_all];
    destruct (eth_getTransactionCount web3 from "pending");
    try destruct (getExportMetFee web3 chain request_argument);
    cbn in H; try discriminate H; eexists; reflexivity.
Qed.

(** Every run of exportMet is one of the two above. *)
Lemma exportMet_cases web3 chain params :
  let from := prop "from" params in
  let fee := prop "fee" params in
  let request_argument := JObj [ ("value", prop "value" params) ] in
  (exists nonce actualFee,
      eth_getTransactionCount web3 from "pending" = Resolved nonce
      /\ (if truthy fee then Resolved fee
          else getExportMetFee web3 chain request_argument)
         = Resolved actualFee)
  \/ is_rejected (eth_getTransactionCount web3 from "pending")
     || is_rejected (if truthy fee then Resolved fee
                     else getExportMetFee web3 chain request_argument)
     = true.
Proof.
  intros from fee request_argument.
  destruct (eth_getTransactionCount web3 from "pending") as [n|];
    destruct (if truthy fee then Resolved fee
              else getExportMetFee web3 chain request_argument) as [f|];
    cbn; auto.
  left. exists n, f. auto.
Qed.

(** C4. In exportMet a truthy [fee] goes into the export call as it is and
    no fee is requested; a falsy [fee] (absent, or 0) makes exportMet ask
    getExportMetFee with { value }, and the fee it answers is the one in
    the export call; when that request fails nothing is broadcast. *)
Theorem exportMet_fee_resolution web3 chain privateKey params nonce :
  let from := prop "from" params in
  let fee := prop "fee" params in
  let request_argument := JObj [ ("value", prop "value" params) ] in
  let run :=
    exportMet toHex MetronomeContracts getExportMetFee web3 chain
              logTransaction metaParsers privateKey params in
  eth_getTransactionCount web3 from "pending" = Resolved nonce ->
  (truthy fee = true ->
     fee_requests (fst run) = []
     /\ map (fun b => arg_at 4 (fst b)) (broadcasts (fst run)) = [fee])
  /\ (truthy fee = false ->
        fee_requests (fst run) = [request_argument]
        /\ (forall estimated,
               getExportMetFee web3 chain request_argument
                 = Resolved estimated ->
               map (fun b => arg_at 4 (fst b)) (broadcasts (fst run))
                 = [estimated])
        /\ (is_rejected (getExportMetFee web3 chain request_argument)
              = true ->
            broadcasts (fst run) = [])).
Proof.
  intros from fee request_argument run Hn. split; intros Ht.
  - unfold run.
    rewrite (exportMet_resolved web3 chain privateKey params nonce fee Hn).
    + fold fee. rewrite Ht. cbn. auto.
    + fold fee. rewrite Ht. reflexivity.
  - split; [ | split ].
    + destruct (exportMet_cases web3 chain params)
        as [(n & f & Hn' & Hf) | Hrej]; unfold run.
      * rewrite (exportMet_resolved web3 chain privateKey params n f Hn' Hf).
        fold fee. rewrite Ht. reflexivity.
      * destruct (exportMet_rejected web3 chain privateKey params Hrej)
          as [rs E].
        rewrite E. fold fee. rewrite Ht. reflexivity.
    + intros estimated He. unfold run.
      rewrite (exportMet_resolved web3 chain privateKey params nonce
                 estimated Hn).
      * fold fee. rewrite Ht. reflexivity.
      * fold fee. rewrite Ht. exact He.
    + intros Hr.
      assert (Hrej :
        is_rejected (eth_getTransactionCount web3 from "pending")
        || is_rejected (if truthy fee then Resolved fee
                        else getExportMetFee web3 chain request_argument)
        = true).
      { rewrite Ht, Hr. apply orb_true_r. }
      destruct (exportMet_rejected web3 chain privateKey params Hrej)
        as [rs E].
      unfold run. rewrite E. fold fee. rewrite Ht. reflexivity.
Qed.

(** C6. When exportMet reaches the tracker, the argument of
    metaParsers.export is { address: from, returnValues: { amountToBurn,
    destinationChain, destinationRecipientAddr, fee } } with exactly these
    four return values: amountToBurn is the requested value,
    destinationChain is toHex(destinationChain), destinationRecipientAddr
    is [to] when it is truthy and [from] otherwise, and fee is the resolved
    fee, the very one placed in the export call. *)
Theorem exportMet_meta_template web3 chain privateKey params
        nonce actualFee :
  let from := prop "from" params in
  let to := prop "to" params in
  let fee := prop "fee" params in
  let run :=
    exportMet toHex MetronomeContracts getExportMetFee web3 chain
              logTransaction metaParsers privateKey params in
  eth_getTransactionCount web3 from "pending" = Resolved nonce ->
  (if truthy fee then Resolved fee
   else getExportMetFee web3 chain (JObj [ ("value", prop "value" params) ]))
    = Resolved actualFee ->
  map snd (logged (fst run))
  = [ Some
        (export metaParsers
           (JObj
              [ ("address", from);
                ("returnValues",
                 JObj
                   [ ("amountToBurn", prop "value" params);
                     ("destinationChain",
                      toHex (prop "destinationChain" params));
                     ("destinationRecipientAddr",
                      if truthy to then to else from);
                     ("fee", actualFee) ]) ])) ]
  /\ map (fun b => arg_at 4 (fst b)) (broadcasts (fst run)) = [actualFee].
Proof.
  intros from to fee run Hn Hf. unfold run.
  rewrite (exportMet_resolved web3 chain privateKey params nonce actualFee
             Hn Hf).
  fold fee. destruct (truthy fee); cbn; auto.
Qed.

(** C7. exportMet and importMet each ask the node once per call for the
    pending transaction count of [from]; that request comes before the
    send in the journal, and the nonce in the send options is the answer
    to it. *)
Theorem nonce_fetched_within_call web3 chain privateKey params :
  let from := prop "from" params in
  let export_run :=
    exportMet toHex MetronomeContracts getExportMetFee web3 chain
              logTransaction metaParsers privateKey params in
  let import_run :=
    importMet toHex MetronomeContracts web3 chain logTransaction
              metaParsers privateKey params in
  (filter is_nonce_request (fst export_run)
     = [EvGetTransactionCount from "pending"]
   /\ forall pre tx options post,
        fst export_run = pre ++ EvSend tx options :: post ->
        In (EvGetTransactionCount from "pending") pre
        /\ eth_getTransactionCount web3 from "pending"
           = Resolved (get "nonce" options))
  /\ (filter is_nonce_request (fst import_run)
        = [EvGetTransactionCount from "pending"]
      /\ forall pre tx options post,
           fst import_run = pre ++ EvSend tx options :: post ->
           In (EvGetTransactionCount from "pending") pre
           /\ eth_getTransactionCount web3 from "pending"
              = Resolved (get "nonce" options)).
Proof.
  intros from export_run import_run. split.
  - destruct (exportMet_cases web3 chain params)
      as [(n & f & Hn & Hf) | Hrej].
    + unfold export_run.
      rewrite (exportMet_resolved web3 chain privateKey params n f Hn Hf).
      cbn [fst]. split.
      * destruct (truthy (prop "fee" params)); reflexivity.
      * intros pre tx options post H. symmetry in H.
        destruct (truthy (prop "fee" params)); cbn [app] in H;
          split_journal H; injection H as -> -> _;
          (split; [ cbn; auto | exact Hn ]).
    + destruct (exportMet_rejected web3 chain privateKey params Hrej)
        as [rs E].
      unfold export_run. rewrite E. cbn [fst]. split.
      * destruct (truthy (prop "fee" params)); reflexivity.
      * intros pre tx options post H. symmetry in H.
        destruct (truthy (prop "fee" params)); cbn [app] in H;
          split_journal H.
  - destruct (importMet_cases web3 chain params)
      as [(n & g & d & Hn & Hg & Hd) | Hrej].
    + unfold import_run.
      rewrite (importMet_resolved web3 chain privateKey params n g d
                 Hn Hg Hd).
      cbn [fst]. split; [ reflexivity | ].
      intros pre tx options post H. symmetry in H.
      split_journal H. injection H as -> -> _.
      split; [ cbn; auto | exact Hn ].
    + destruct (importMet_rejected web3 chain privateKey params Hrej)
        as [rs E].
      unfold import_run. rewrite E. cbn [fst]. split; [ reflexivity | ].
      intros pre tx options post H. symmetry in H. split_journal H.
Qed.

(** C3 (amended). For the same parameters, the call object whose gas
    estimateImportMetGas asks for is the call object importMet sends:
    same contract, same method, same argument tuple, element for element.
    estimateExportMetGas hands the SDK
    ({ destChain, destMetronomeAddr }, to || from, value, fee, extraData,
     { from }),
    the parameters in the order of exportMet's export call
    (toHex(destinationChain), destinationMetAddress, to || from, value,
     actualFee, extraData);
    the chain identifier is not hex-encoded on the estimate side, and the
    fee entries are the same when the caller's fee is truthy. *)
Theorem estimates_follow_sends web3 chain coin privateKey params :
  let from := prop "from" params in
  let fee := prop "fee" params in
  let import_run :=
    importMet toHex MetronomeContracts web3 chain logTransaction
              metaParsers privateKey params in
  let import_estimate :=
    estimateImportMetGas (meta := meta) toHex MetronomeContracts web3 chain
                         params in
  let export_run :=
    exportMet toHex MetronomeContracts getExportMetFee web3 chain
              logTransaction metaParsers privateKey params in
  let export_estimate :=
    estimateExportMetGas (meta := meta) createMetronome coin params in
  (forall estimated estimate_options sent send_options,
      In (estimated, estimate_options) (estimates (fst import_estimate)) ->
      In (sent, send_options) (broadcasts (fst import_run)) ->
      estimated = sent)
  /\ (forall arguments sent send_options,
         In arguments (sdk_estimates (fst export_estimate)) ->
         In (sent, send_options) (broadcasts (fst export_run)) ->
         exists actualFee,
           arguments
           = [ JObj [ ("destChain", prop "destinationChain" params);
                      ("destMetronomeAddr",
                       prop "destinationMetAddress" params) ];
               js_or (prop "to" params) from;
               prop "value" params;
               fee;
               prop "extraData" params;
               JObj [ ("from", from) ] ]
           /\ sent
              = METToken_methods "export"
                  [ toHex (prop "destinationChain" params);
                    prop "destinationMetAddress" params;
                    js_or (prop "to" params) from;
                    prop "value" params;
                    actualFee;
                    prop "extraData" params ]
           /\ (truthy fee = true -> actualFee = fee)).
Proof.
  intros from fee import_run import_estimate export_run export_estimate.
  split.
  - intros txe oe txs os He Hs.
    destruct (importMet_cases web3 chain params)
      as [(n & g & d & Hn & Hg & Hd) | Hrej].
    + unfold import_run in Hs.
      rewrite (importMet_resolved web3 chain privateKey params n g d
                 Hn Hg Hd) in Hs.
      unfold import_estimate, estimateImportMetGas, request, then_, after
        in He.
      cbn [Promise_all] in He. rewrite Hg, Hd in He.
      cbn in He, Hs.
      destruct He as [He | []]. destruct Hs as [Hs | []].
      injection He as <- _. injection Hs as <- _. reflexivity.
    + destruct (importMet_rejected web3 chain privateKey params Hrej)
        as [rs E].
      unfold import_run in Hs. rewrite E in Hs. cbn in Hs. destruct Hs.
  - intros a tx o Ha Hs.
    unfold export_estimate, estimateExportMetGas, request in Ha.
    cbn in Ha. destruct Ha as [Ha | []]. subst a.
    destruct (exportMet_cases web3 chain params)
      as [(n & f & Hn & Hf) | Hrej].
    + unfold export_run in Hs.
      rewrite (exportMet_resolved web3 chain privateKey params n f Hn Hf)
        in Hs.
      exists f. subst fee.
      destruct (truthy (prop "fee" params)) eqn:Ht; cbn in Hs;
        destruct Hs as [Hs | []]; injection Hs as <- _;
        repeat split; try reflexivity.
      * intros _. injection Hf as <-. reflexivity.
      * intros Hfalse. discriminate Hfalse.
    + destruct (exportMet_rejected web3 chain privateKey params Hrej)
        as [rs E].
      unfold export_run in Hs. rewrite E in Hs. cbn [fst] in Hs.
      destruct (truthy (prop "fee" params)); cbn in Hs; destruct Hs.
Qed.

(** *** sendMet and sendCoin *)

Lemma sendMet_resolved getSigningLib privateKey params contracts :
  let met := createMetronome (getSigningLib privateKey) in
  let from := prop "from" params in
  met_getContracts met = Resolved contracts ->
  let arguments :=
    [ prop "to" params; prop "value" params;
      JObj [ ("from", from); ("gasPrice", prop "gasPrice" params);
             ("gas", prop "gas" params) ] ] in
  let template :=
    transfer metaParsers
      (JObj [ ("address", METToken_options_address contracts);
              ("returnValues",
               JObj [ ("_from", from); ("_to", prop "to" params);
                      ("_value", prop "value" params) ]) ]) in
  sendMet createMetronome getSigningLib logTransaction metaParsers
          privateKey params
  = ([ EvSdkGetContracts;
       EvSdkSendMet arguments;
       EvLogTransaction (met_sendMet met arguments) from (Some template) ],
     Resolved (logTransaction (met_sendMet met arguments) from
                 (Some template))).
Proof.
  intros met from Hc arguments template.
  unfold sendMet, request, then_, after. fold met. rewrite Hc. reflexivity.
Qed.

Lemma sendMet_rejected getSigningLib privateKey params reasons :
  met_getContracts (createMetronome (getSigningLib privateKey))
    = Rejected reasons ->
  sendMet createMetronome getSigningLib logTransaction metaParsers
          privateKey params
  = ([EvSdkGetContracts], Rejected reasons).
Proof.
  intros Hc. unfold sendMet, request, then_, after. rewrite Hc. reflexivity.
Qed.

(** C8. Each send-type operation gives back what logTransaction returns
    for the handle of its broadcast and the sender address [from].
    sendCoin returns it directly, for the handle toPromiEvent makes of the
    wallet's send, and passes no template.  sendMet resolves with it once
    getContracts resolves, exportMet once the nonce and the fee arrive,
    importMet once the nonce and the two auction values arrive; their
    broadcast is the SDK's sendMet, the METToken export call and the
    METToken importMET call, and their template comes from
    metaParsers.transfer, .export and .importRequest.  When one of those
    requests is rejected instead, the operation rejects, and nothing is
    broadcast or logged. *)
Theorem send_operations_return_tracked_handle :
  (forall (walletRPCProvider : WalletRPCProvider sendPromise)
          (plugins : Plugins handle meta QtumRPC) privateKey params,
      let from := prop "from" params in
      let to := prop "to" params in
      let run :=
        sendCoin toPromiEvent walletRPCProvider plugins privateKey params in
      exists amount options,
        let h :=
          toPromiEvent (qtum_qtumRPC plugins)
            (fromPrivateKey_wallet_send walletRPCProvider privateKey to
               amount options) in
        wallet_sends (fst run) = [(privateKey, to, amount, options)]
        /\ logged (fst run) = [(h, from, None)]
        /\ snd run = transactionsList_logTransaction plugins h from None)
  /\ (forall getSigningLib privateKey params,
         let met := createMetronome (getSigningLib privateKey) in
         let from := prop "from" params in
         let run :=
           sendMet createMetronome getSigningLib logTransaction metaParsers
                   privateKey params in
         (forall contracts,
             met_getContracts met = Resolved contracts ->
             exists arguments template_argument,
               let h := met_sendMet met arguments in
               let template := Some (transfer metaParsers template_argument) in
               sdk_sends (fst run) = [arguments]
               /\ logged (fst run) = [(h, from, template)]
               /\ snd run = Resolved (logTransaction h from template))
         /\ (is_rejected (met_getContracts met) = true ->
             is_rejected (snd run) = true
             /\ sdk_sends (fst run) = [] /\ logged (fst run) = []))
  /\ (forall web3 chain privateKey params,
         let c := MetronomeContracts web3 chain in
         let from := prop "from" params in
         let fee := prop "fee" params in
         let nonce := eth_getTransactionCount web3 from "pending" in
         let estimate :=
           if truthy fee then Resolved fee
           else getExportMetFee web3 chain
                  (JObj [ ("value", prop "value" params) ]) in
         let run :=
           exportMet toHex MetronomeContracts getExportMetFee web3 chain
                     logTransaction metaParsers privateKey params in
         (is_rejected nonce || is_rejected estimate = false ->
          exists tx options template_argument,
            let h := send c tx options in
            let template := Some (export metaParsers template_argument) in
            contract tx = "METToken" /\ method tx = "export"
            /\ broadcasts (fst run) = [(tx, options)]
            /\ logged (fst run) = [(h, from, template)]
            /\ snd run = Resolved (logTransaction h from template))
         /\ (is_rejected nonce || is_rejected estimate = true ->
             is_rejected (snd run) = true
             /\ broadcasts (fst run) = [] /\ logged (fst run) = []))
  /\ (forall web3 chain privateKey params,
         let c := MetronomeContracts web3 chain in
         let from := prop "from" params in
         let nonce := eth_getTransactionCount web3 from "pending" in
         let genesis := call c (Auctions_methods "genesisTime" []) in
         let daily := call c (Auctions_methods "dailyAuctionStartTime" []) in
         let run :=
           importMet toHex MetronomeContracts web3 chain logTransaction
                     metaParsers privateKey params in
         (is_rejected nonce || is_rejected genesis || is_rejected daily
          = false ->
          exists tx options template_argument,
            let h := send c tx options in
            let template :=
              Some (importRequest metaParsers template_argument) in
            contract tx = "METToken" /\ method tx = "importMET"
            /\ broadcasts (fst run) = [(tx, options)]
            /\ logged (fst run) = [(h, from, template)]
            /\ snd run = Resolved (logTransaction h from template))
         /\ (is_rejected nonce || is_rejected genesis || is_rejected daily
             = true ->
             is_rejected (snd run) = true
             /\ broadcasts (fst run) = [] /\ logged (fst run) = [])).
Proof.
  split; [ | split; [ | split ] ].
  - intros w pl pk params from to run.
    do 2 eexists. unfold run, sendCoin. cbn. repeat split; reflexivity.
  - intros gsl pk params met from run. split.
    + intros contracts Hc. unfold run.
      rewrite (sendMet_resolved gsl pk params contracts Hc).
      do 2 eexists. cbn. repeat split; reflexivity.
    + intros Hr. destruct (met_getContracts met) as [contracts | rs] eqn:Hc;
        [ discriminate Hr | ].
      unfold run. rewrite (sendMet_rejected gsl pk params rs Hc). cbn. auto.
  - intros web3 chain pk params c from fee nonce estimate run. split.
    + intros Hok.
      destruct (exportMet_cases web3 chain params)
        as [(n & f & Hn & Hf) | Hrej];
        [ | unfold nonce, estimate, fee, from in Hok;
            rewrite Hrej in Hok; discriminate Hok ].
      unfold run.
      rewrite (exportMet_resolved web3 chain pk params n f Hn Hf).
      do 3 eexists.
      destruct (truthy (prop "fee" params)); cbn;
        repeat split; reflexivity.
    + intros Hrej.
      destruct (exportMet_rejected web3 chain pk params Hrej) as [rs E].
      unfold run. rewrite E.
      destruct (truthy (prop "fee" params)); cbn; auto.
  - intros web3 chain pk params c from nonce genesis daily run. split.
    + intros Hok.
      destruct (importMet_cases web3 chain params)
        as [(n & g & d & Hn & Hg & Hd) | Hrej];
        [ | unfold nonce, genesis, daily, from, c in Hok;
            rewrite Hrej in Hok; discriminate Hok ].
      unfold run.
      rewrite (importMet_resolved web3 chain pk params n g d Hn Hg Hd).
      do 3 eexists. cbn. repeat split; reflexivity.
    + intros Hrej.
      destruct (importMet_rejected web3 chain pk params Hrej) as [rs E].
      unfold run. rewrite E. cbn. auto.
Qed.

(** C5. sendCoin on the UTXO chain sends with { feeRate: 402 } when the
    caller's parameters carry no feeRate, and with the caller's feeRate
    when they carry one. *)
Theorem sendCoin_default_feeRate
        (walletRPCProvider : WalletRPCProvider sendPromise)
        (plugins : Plugins handle meta QtumRPC) privateKey params :
  let run :=
    sendCoin toPromiEvent walletRPCProvider plugins privateKey params in
  (prop "feeRate" params = JUndefined ->
     map snd (wallet_sends (fst run)) = [JObj [ ("feeRate", JNum 402) ]])
  /\ (prop "feeRate" params <> JUndefined ->
        map snd (wallet_sends (fst run))
          = [JObj [ ("feeRate", prop "feeRate" params) ]]).
Proof.
  intros run. unfold run, sendCoin. cbn. split; intros H.
  - rewrite H. reflexivity.
  - destruct (prop "feeRate" params); try reflexivity. congruence.
Qed.

End Properties.

(* ===================================================================== *)
(** ** Number.parseInt on strings *)
(* ===================================================================== *)













(** The digits of a decimal numeral, as parseInt reads them. *)
Lemma leading_digits_uint_acc d : forall acc,
  fold_left (fun a x => a * 10 + x)
            (leading_digits 10 (NilEmpty.string_of_uint d)) (Z.pos acc)
  = Z.pos (Pos.of_uint_acc d acc).
Proof.
  induction d; intros acc; cbn [NilEmpty.string_of_uint Pos.of_uint_acc];
    [ reflexivity | .. ];
    cbn [leading_digits]; 
    match goal with
    | |- context [digit_value ?c] =>
        let v := eval vm_compute in (digit_value c) in
        change (digit_value c) with v
    end; cbv iota; cbn [Z.ltb Z.compare Pos.compare Pos.compare_cont]; cbv iota;
    cbn [fold_left]; rewrite <- IHd; f_equal; lia.
Qed.

Lemma leading_digits_uint d :
  mathInt 10 (leading_digits 10 (NilEmpty.string_of_uint d)) = Z.of_uint d.
Proof.
  unfold mathInt, Z.of_uint.
  induction d; cbn [NilEmpty.string_of_uint Pos.of_uint];
    [ reflexivity | .. ];
    cbn [leading_digits];
    match goal with
    | |- context [digit_value ?c] =>
        let v := eval vm_compute in (digit_value c) in
        change (digit_value c) with v
    end; cbv iota; cbn [Z.ltb Z.compare Pos.compare Pos.compare_cont]; cbv iota;
    cbn [fold_left]; cbn [Z.mul Z.add Z.of_N];
    [ exact IHd | apply leading_digits_uint_acc .. ].
Qed.

Lemma uint_string_head d :
  d <> Decimal.Nil ->
  exists c r,
    NilEmpty.string_of_uint d = String c r
    /\ is_digit c
    /\ match r with
       | EmptyString => True
       | String x _ => is_digit x
       end.
Proof.
  unfold is_digit.
  destruct d as [|d|d|d|d|d|d|d|d|d|d]; intros H; [ congruence | .. ];
    cbn [NilEmpty.string_of_uint]; do 2 eexists;
    (split; [ reflexivity | split; [ vm_compute; split; discriminate | ] ]);
    destruct d; cbn [NilEmpty.string_of_uint]; try exact I;
    vm_compute; split; discriminate.
Qed.

Ltac code_facts c :=
  repeat match goal with
         | |- context [Z.eqb (code c) ?k] => destruct (Z.eqb_spec (code c) k)
         | |- context [Z.leb (code c) ?k] => destruct (Z.leb_spec (code c) k)
         | |- context [Z.leb ?k (code c)] => destruct (Z.leb_spec k (code c))
         end;
  solve [ reflexivity | lia ].

Lemma skip_ws_digit c r : is_digit c -> skip_ws (String c r) = String c r.
Proof.
  unfold is_digit. intros H. cbn [skip_ws].
  assert (E1 : ws1 c = false) by (unfold ws1; code_facts c).
  rewrite E1. destruct r as [|b r2]; [ reflexivity | ].
  assert (E2 : ws2 c b = false) by (unfold ws2; code_facts c).
  rewrite E2. destruct r2 as [|x r3]; [ reflexivity | ].
  assert (E3 : ws3 c b x = false) by (unfold ws3; code_facts c).
  rewrite E3. reflexivity.
Qed.

Lemma split_sign_digit c r : is_digit c -> split_sign (String c r) = (1, String c r).
Proof.
  unfold is_digit, split_sign. intros H.
  destruct (Z.eqb_spec (code c) 45); [ lia | ].
  destruct (Z.eqb_spec (code c) 43); [ lia | reflexivity ].
Qed.

Lemma split_radix_digits c r :
  match r with
  | EmptyString => True
  | String x _ => is_digit x
  end ->
  split_radix (String c r) = (10, String c r).
Proof.
  unfold is_digit, split_radix. destruct r as [|x r']; [ reflexivity | ].
  intros H.
  destruct (Z.eqb_spec (code x) 120); [ lia | ].
  destruct (Z.eqb_spec (code x) 88); [ lia | ].
  rewrite andb_false_r. reflexivity.
Qed.

Lemma leading_digits_nonempty c r :
  is_digit c -> leading_digits 10 (String c r) <> [].
Proof.
  unfold is_digit. intros H. cbn [leading_digits]. unfold digit_value.
  destruct (Z.leb_spec 48 (code c)); [ | lia ].
  destruct (Z.leb_spec (code c) 57); [ | lia ].
  cbn [andb].
  destruct (Z.ltb_spec (code c - 48) 10); [ discriminate | lia ].
Qed.

(** parseInt reads back the decimal form of an integer. *)
Lemma parseInt_string_decimal n : parseInt_string (decimal n) = JNum n.
Proof.
  assert (Hu : forall p sign rest,
    rest = NilEmpty.string_of_uint (Pos.to_uint p) ->
    (let (R, S2) := split_radix rest in
     match leading_digits R S2 with
     | [] => JNaN
     | ds => JNum (sign * mathInt R ds)
     end) = JNum (sign * Z.pos p)).
  { intros p sign rest ->.
    destruct (uint_string_head (Pos.to_uint p) (Unsigned.to_uint_nonnil p))
      as (c & r & E & Hc & Hr).
    pose proof (leading_digits_uint (Pos.to_uint p)) as Hv.
    rewrite E in *. rewrite (split_radix_digits c r Hr). cbv beta iota.
    pose proof (leading_digits_nonempty c r Hc) as Hne.
    destruct (leading_digits 10 (String c r)) as [|d ds]; [ congruence | ].
    rewrite Hv. unfold Z.of_uint. rewrite Unsigned.of_to. reflexivity. }
  assert (Hz : forall p, NilZero.string_of_uint (Pos.to_uint p)
                         = NilEmpty.string_of_uint (Pos.to_uint p)).
  { intros p. pose proof (Unsigned.to_uint_nonnil p).
    destruct (Pos.to_uint p); [ congruence | reflexivity .. ]. }
  destruct n as [|p|p]; [ reflexivity | | ].
  - unfold parseInt_string, decimal. cbn [Z.to_int NilZero.string_of_int].
    rewrite Hz.
    destruct (uint_string_head (Pos.to_uint p) (Unsigned.to_uint_nonnil p))
      as (c & r & E & Hc & Hr).
    rewrite E, (skip_ws_digit c r Hc), (split_sign_digit c r Hc), <- E.
    rewrite (Hu p 1 _ eq_refl). f_equal.
  - unfold parseInt_string, decimal. cbn [Z.to_int NilZero.string_of_int].
    rewrite Hz.
    assert (Hs : forall r, skip_ws (String "-" r) = String "-" r).
    { intros r. cbn [skip_ws]. change (ws1 "-") with false. cbv iota.
      destruct r as [|b r2]; [ reflexivity | ].
      change (ws2 "-" b) with false. cbv iota.
      destruct r2 as [|x r3]; [ reflexivity | ].
      assert (E3 : ws3 "-" b x = false)
        by reflexivity.
      rewrite E3. reflexivity. }
    rewrite Hs.
    assert (Hm : forall r, split_sign (String "-" r) = (-1, r))
      by reflexivity.
    rewrite Hm, (Hu p (-1) _ eq_refl). f_equal.
Qed.


(* ===================================================================== *)
(** ** The theorems at work on concrete runs *)
(* ===================================================================== *)

Lemma importMet_reads_context_first_witness :
  (fst Demo.import_ok
   = firstn 4 (fst Demo.import_ok)
     ++ EvSend Demo.importMET_call Demo.send_options
     :: skipn 5 (fst Demo.import_ok)
   /\ In (EvCall (Auctions_methods "genesisTime" []))
         (firstn 4 (fst Demo.import_ok))
   /\ In (EvCall (Auctions_methods "dailyAuctionStartTime" []))
         (firstn 4 (fst Demo.import_ok)))
  /\ (is_rejected (call (Demo.MetronomeContracts Demo.node Demo.unreachable)
                        (Auctions_methods "genesisTime" []))
      || is_rejected (call (Demo.MetronomeContracts Demo.node Demo.unreachable)
                           (Auctions_methods "dailyAuctionStartTime" []))
      = true
      /\ is_rejected (snd Demo.import_ko) = true
      /\ broadcasts (fst Demo.import_ko) = []
      /\ logged (fst Demo.import_ko) = []).
Proof.
  pose proof (importMet_reads_context_first Demo.toHex Demo.MetronomeContracts
                Demo.logTransaction Demo.metaParsers Demo.node Demo.healthy
                Demo.key Demo.importParams) as Hok.
  pose proof (importMet_reads_context_first Demo.toHex Demo.MetronomeContracts
                Demo.logTransaction Demo.metaParsers Demo.node
                Demo.unreachable Demo.key Demo.importParams) as Hko.
  assert (H1 : fst Demo.import_ok
               = firstn 4 (fst Demo.import_ok)
                 ++ EvSend Demo.importMET_call Demo.send_options
                 :: skipn 5 (fst Demo.import_ok)) by reflexivity.
  assert (H2 : is_rejected (call (Demo.MetronomeContracts Demo.node
                                    Demo.unreachable)
                              (Auctions_methods "genesisTime" []))
               || is_rejected (call (Demo.MetronomeContracts Demo.node
                                       Demo.unreachable)
                                 (Auctions_methods "dailyAuctionStartTime" []))
               = true) by reflexivity.
  split.
  - split; [ exact H1 | exact (proj1 Hok _ _ _ _ H1) ].
  - split; [ exact H2 | exact (proj2 Hko H2) ].
Defined.

Lemma importMet_sends_ImportProof_witness :
  eth_getTransactionCount Demo.node (prop "from" Demo.importParams) "pending"
    = Resolved (JNum 12)
  /\ call (Demo.MetronomeContracts Demo.node Demo.healthy)
          (Auctions_methods "genesisTime" [])
     = Resolved (JNum 1529280060)
  /\ call (Demo.MetronomeContracts Demo.node Demo.healthy)
          (Auctions_methods "dailyAuctionStartTime" [])
     = Resolved (JNum 1529883999)
  /\ exists template_argument,
      broadcasts (fst Demo.import_ok)
        = [(Demo.importMET_call, Demo.send_options)]
      /\ logged (fst Demo.import_ok)
         = [(Demo.Sent Demo.importMET_call Demo.send_options, JStr "0xf00d",
             Some (importRequest Demo.metaParsers template_argument))]
      /\ snd Demo.import_ok
         = Resolved
             (Demo.logTransaction
                (Demo.Sent Demo.importMET_call Demo.send_options)
                (JStr "0xf00d")
                (Some (importRequest Demo.metaParsers template_argument))).
Proof.
  repeat (split; [ reflexivity | ]).
  exact (importMet_sends_ImportProof Demo.toHex Demo.MetronomeContracts
           Demo.logTransaction Demo.metaParsers Demo.node Demo.healthy
           Demo.key Demo.importParams (JNum 12) (JNum 1529280060)
           (JNum 1529883999) eq_refl eq_refl eq_refl).
Defined.

(** C2 as the specification words it fails on a chain name: importMet on
    [originChain: "ETH"] sends ["0x455448"] in the first position, not the
    caller's ["ETH"]. *)
Lemma importMet_chain_ids_are_encoded :
  broadcasts (fst Demo.import_ok) = [(Demo.importMET_call, Demo.send_options)]
  /\ args Demo.importMET_call
     <> spec_ImportProof Demo.importParams (JNum 1529280060) (JNum 1529883999)
  /\ arg_at 0 Demo.importMET_call = JStr "0x455448"
  /\ prop "originChain" Demo.importParams = JStr "ETH".
Proof.
  split; [ reflexivity | split; [ | split; reflexivity ] ].
  intros H. discriminate H.
Qed.

Lemma estimates_follow_sends_witness :
  (In (Demo.importMET_call, JObj [ ("from", JStr "0xf00d") ])
      (estimates (fst Demo.import_estimate))
   /\ In (Demo.importMET_call, Demo.send_options)
         (broadcasts (fst Demo.import_ok))
   /\ Demo.importMET_call = Demo.importMET_call)
  /\ (In Demo.export_estimate_arguments
         (sdk_estimates (fst Demo.export_estimate_fee))
      /\ In (Demo.export_call, Demo.send_options)
            (broadcasts (fst Demo.export_fee))
      /\ truthy (prop "fee" Demo.exportParamsWithFee) = true
      /\ arg_at 4 Demo.export_call = nth 3 Demo.export_estimate_arguments JNull).
Proof.
  pose proof (estimates_follow_sends Demo.toHex Demo.MetronomeContracts
                Demo.sdk Demo.porter Demo.logTransaction Demo.metaParsers
                Demo.node Demo.healthy {| lib := tt |} Demo.key
                Demo.importParams) as Hi.
  pose proof (estimates_follow_sends Demo.toHex Demo.MetronomeContracts
                Demo.sdk Demo.porter Demo.logTransaction Demo.metaParsers
                Demo.node Demo.healthy {| lib := tt |} Demo.key
                Demo.exportParamsWithFee) as He.
  assert (H1 : In (Demo.importMET_call, JObj [ ("from", JStr "0xf00d") ])
                  (estimates (fst Demo.import_estimate)))
    by (left; reflexivity).
  assert (H2 : In (Demo.importMET_call, Demo.send_options)
                  (broadcasts (fst Demo.import_ok)))
    by (left; reflexivity).
  assert (H3 : In Demo.export_estimate_arguments
                  (sdk_estimates (fst Demo.export_estimate_fee)))
    by (left; reflexivity).
  assert (H4 : In (Demo.export_call, Demo.send_options)
                  (broadcasts (fst Demo.export_fee)))
    by (left; reflexivity).
  assert (H5 : truthy (prop "fee" Demo.exportParamsWithFee) = true)
    by reflexivity.
  split.
  - split; [ exact H1 | split; [ exact H2 | ] ].
    exact (proj1 Hi _ _ _ _ H1 H2).
  - split; [ exact H3 | split; [ exact H4 | split; [ exact H5 | ] ] ].
    destruct (proj2 He _ _ _ H3 H4) as (f & Ha & Hs & Hf).
    rewrite Hs, Ha. cbn. exact (Hf H5).
Defined.

(** C3 as the specification words it fails for the export half: on an
    export with [fee: 0] the estimate is asked with fee 0 and with the chain
    name ["ETC"], while the send carries the estimated fee 7 and
    ["0x455443"]. *)
Lemma export_estimate_differs_from_send :
  exists arguments sent options,
    sdk_estimates (fst Demo.export_estimate_auto) = [arguments]
    /\ broadcasts (fst Demo.export_auto) = [(sent, options)]
    /\ arguments <> args sent
    /\ args sent <> spec_export_sequence Demo.exportParams
    /\ nth 3 arguments JUndefined = JNum 0
    /\ arg_at 4 sent = JNum 7.
Proof.
  do 3 eexists.
  split; [ reflexivity | split; [ reflexivity | ] ].
  split; [ | split; [ | split; reflexivity ] ];
    intros H; discriminate H.
Qed.

Lemma exportMet_fee_resolution_witness :
  eth_getTransactionCount Demo.node (prop "from" Demo.exportParams) "pending"
    = Resolved (JNum 12)
  /\ (truthy (prop "fee" Demo.exportParamsWithFee) = true
      /\ fee_requests (fst Demo.export_fee) = []
      /\ map (fun b => arg_at 4 (fst b)) (broadcasts (fst Demo.export_fee))
         = [JNum 3])
  /\ (truthy (prop "fee" Demo.exportParams) = false
      /\ Demo.porter Demo.node Demo.healthy (JObj [ ("value", JNum 1000) ])
         = Resolved (JNum 7)
      /\ fee_requests (fst Demo.export_auto)
         = [JObj [ ("value", JNum 1000) ]]
      /\ map (fun b => arg_at 4 (fst b)) (broadcasts (fst Demo.export_auto))
         = [JNum 7]).
Proof.
  pose proof (exportMet_fee_resolution Demo.toHex Demo.MetronomeContracts
                Demo.porter Demo.logTransaction Demo.metaParsers Demo.node
                Demo.healthy Demo.key Demo.exportParamsWithFee (JNum 12)
                eq_refl) as Hfee.
  pose proof (exportMet_fee_resolution Demo.toHex Demo.MetronomeContracts
                Demo.porter Demo.logTransaction Demo.metaParsers Demo.node
                Demo.healthy Demo.key Demo.exportParams (JNum 12)
                eq_refl) as Hauto.
  split; [ reflexivity | split ].
  - split; [ reflexivity | exact (proj1 Hfee eq_refl) ].
  - split; [ reflexivity | split; [ reflexivity | ] ].
    destruct (proj2 Hauto eq_refl) as (Hreq & Hsent & _).
    split; [ exact Hreq | exact (Hsent (JNum 7) eq_refl) ].
Defined.

Lemma sendCoin_default_feeRate_witness :
  (prop "feeRate" Demo.coinParams = JUndefined
   /\ map snd (wallet_sends (fst (Demo.coin_run Demo.coinParams)))
      = [JObj [ ("feeRate", JNum 402) ]])
  /\ (prop "feeRate" Demo.coinParamsRate <> JUndefined
      /\ map snd (wallet_sends (fst (Demo.coin_run Demo.coinParamsRate)))
         = [JObj [ ("feeRate", JNum 500) ]]).
Proof.
  assert (H1 : prop "feeRate" Demo.coinParams = JUndefined) by reflexivity.
  assert (H2 : prop "feeRate" Demo.coinParamsRate <> JUndefined)
    by (intros H; discriminate H).
  split.
  - split; [ exact H1 | ].
    exact (proj1 (sendCoin_default_feeRate Demo.toPromiEvent
                    Demo.walletRPCProvider Demo.plugins Demo.key
                    Demo.coinParams) H1).
  - split; [ exact H2 | ].
    exact (proj2 (sendCoin_default_feeRate Demo.toPromiEvent
                    Demo.walletRPCProvider Demo.plugins Demo.key
                    Demo.coinParamsRate) H2).
Defined.

Lemma exportMet_meta_template_witness :
  eth_getTransactionCount Demo.node (prop "from" Demo.exportParams) "pending"
    = Resolved (JNum 12)
  /\ (if truthy (prop "fee" Demo.exportParams)
      then Resolved (prop "fee" Demo.exportParams)
      else Demo.porter Demo.node Demo.healthy
             (JObj [ ("value", prop "value" Demo.exportParams) ]))
     = Resolved (JNum 7)
  /\ map snd (logged (fst Demo.export_auto))
     = [ Some
           (export Demo.metaParsers
              (JObj
                 [ ("address", JStr "0xf00d");
                   ("returnValues",
                    JObj
                      [ ("amountToBurn", JNum 1000);
                        ("destinationChain", JStr "0x455443");
                        ("destinationRecipientAddr", JStr "0xf00d");
                        ("fee", JNum 7) ]) ])) ]
  /\ map (fun b => arg_at 4 (fst b)) (broadcasts (fst Demo.export_auto))
     = [JNum 7].
Proof.
  split; [ reflexivity | split; [ reflexivity | ] ].
  exact (exportMet_meta_template Demo.toHex Demo.MetronomeContracts
           Demo.porter Demo.logTransaction Demo.metaParsers Demo.node
           Demo.healthy Demo.key Demo.exportParams (JNum 12) (JNum 7)
           eq_refl eq_refl).
Defined.

Lemma nonce_fetched_within_call_witness :
  (fst Demo.export_fee
   = firstn 2 (fst Demo.export_fee)
     ++ EvSend Demo.export_call Demo.send_options
     :: skipn 3 (fst Demo.export_fee)
   /\ In (EvGetTransactionCount (JStr "0xf00d") "pending")
         (firstn 2 (fst Demo.export_fee))
   /\ eth_getTransactionCount Demo.node (JStr "0xf00d") "pending"
      = Resolved (get "nonce" Demo.send_options))
  /\ (fst Demo.import_ok
      = firstn 4 (fst Demo.import_ok)
        ++ EvSend Demo.importMET_call Demo.send_options
        :: skipn 5 (fst Demo.import_ok)
      /\ In (EvGetTransactionCount (JStr "0xf00d") "pending")
            (firstn 4 (fst Demo.import_ok))
      /\ eth_getTransactionCount Demo.node (JStr "0xf00d") "pending"
         = Resolved (get "nonce" Demo.send_options)).
Proof.
  pose proof (nonce_fetched_within_call Demo.toHex Demo.MetronomeContracts
                Demo.porter Demo.logTransaction Demo.metaParsers Demo.node
                Demo.healthy Demo.key Demo.exportParamsWithFee) as He.
  pose proof (nonce_fetched_within_call Demo.toHex Demo.MetronomeContracts
                Demo.porter Demo.logTransaction Demo.metaParsers Demo.node
                Demo.healthy Demo.key Demo.importParams) as Hi.
  assert (H1 : fst Demo.export_fee
               = firstn 2 (fst Demo.export_fee)
                 ++ EvSend Demo.export_call Demo.send_options
                 :: skipn 3 (fst Demo.export_fee)) by reflexivity.
  assert (H2 : fst Demo.import_ok
               = firstn 4 (fst Demo.import_ok)
                 ++ EvSend Demo.importMET_call Demo.send_options
                 :: skipn 5 (fst Demo.import_ok)) by reflexivity.
  split.
  - split; [ exact H1 | exact (proj2 (proj1 He) _ _ _ _ H1) ].
  - split; [ exact H2 | exact (proj2 (proj2 Hi) _ _ _ _ H2) ].
Defined.


(** The four operations on requests that succeed and on requests that
    fail. *)
Lemma send_operations_return_tracked_handle_witness :
  (exists h, snd (Demo.coin_run Demo.coinParams)
             = Demo.logTransaction h (JStr "qTb9") None)
  /\ (met_getContracts (Demo.sdk (Demo.getSigningLib Demo.key))
      = Resolved {| METToken_options_address := JStr "0x3e7" |}
      /\ exists h template,
          snd Samples.transfer_ok
          = Resolved (Demo.logTransaction h (JStr "0xf00d") template))
  /\ (is_rejected
        (met_getContracts (Samples.broken_sdk (Demo.getSigningLib Demo.key)))
      = true
      /\ is_rejected (snd Samples.transfer_ko) = true
      /\ sdk_sends (fst Samples.transfer_ko) = []
      /\ logged (fst Samples.transfer_ko) = [])
  /\ (exists tx options template,
         broadcasts (fst Demo.export_fee) = [(tx, options)]
         /\ method tx = "export"
         /\ snd Demo.export_fee
            = Resolved (Demo.logTransaction (Demo.Sent tx options)
                          (JStr "0xf00d") template))
  /\ (is_rejected (snd Samples.export_no_nonce) = true
      /\ broadcasts (fst Samples.export_no_nonce) = []
      /\ logged (fst Samples.export_no_nonce) = [])
  /\ (exists tx options template,
         broadcasts (fst Demo.import_ok) = [(tx, options)]
         /\ method tx = "importMET"
         /\ snd Demo.import_ok
            = Resolved (Demo.logTransaction (Demo.Sent tx options)
                          (JStr "0xf00d") template))
  /\ (is_rejected (snd Demo.import_ko) = true
      /\ broadcasts (fst Demo.import_ko) = []
      /\ logged (fst Demo.import_ko) = []).
Proof.
  destruct (send_operations_return_tracked_handle (Lib := unit)
              Demo.toHex Demo.MetronomeContracts Demo.sdk Demo.porter
              Demo.toPromiEvent Demo.logTransaction Demo.metaParsers)
    as (Hcoin & Hmet & Hexp & Himp).
  pose proof (send_operations_return_tracked_handle (Lib := unit)
                Demo.toHex Demo.MetronomeContracts Samples.broken_sdk
                Demo.porter Demo.toPromiEvent Demo.logTransaction
                Demo.metaParsers) as Hbroken.
  split; [ | split; [ | split; [ | split; [ | split; [ | split ] ] ] ] ].
  - destruct (Hcoin Demo.walletRPCProvider Demo.plugins Demo.key
                Demo.coinParams) as (amount & options & _ & _ & Hr).
    eexists. exact Hr.
  - split; [ reflexivity | ].
    destruct (proj1 (Hmet Demo.getSigningLib Demo.key Samples.transferParams)
                _ eq_refl) as (arguments & argument & _ & _ & Hr).
    do 2 eexists. exact Hr.
  - split; [ reflexivity | ].
    exact (proj2 (proj1 (proj2 Hbroken) Demo.getSigningLib Demo.key
                    Samples.transferParams) eq_refl).
  - destruct (proj1 (Hexp Demo.node Demo.healthy Demo.key
                       Demo.exportParamsWithFee) eq_refl)
      as (tx & options & argument & _ & Hm & Hb & _ & Hr).
    exists tx, options. eexists.
    split; [ exact Hb | split; [ exact Hm | exact Hr ] ].
  - exact (proj2 (Hexp Samples.deaf Demo.healthy Demo.key Demo.exportParams)
             eq_refl).
  - destruct (proj1 (Himp Demo.node Demo.healthy Demo.key Demo.importParams)
                eq_refl)
      as (tx & options & argument & _ & Hm & Hb & _ & Hr).
    exists tx, options. eexists.
    split; [ exact Hb | split; [ exact Hm | exact Hr ] ].
  - exact (proj2 (Himp Demo.node Demo.unreachable Demo.key Demo.importParams)
             eq_refl).
Defined.

Lemma importMet_meta_template_witness :
  eth_getTransactionCount Demo.node (prop "from" Demo.importParams) "pending"
    = Resolved (JNum 12)
  /\ call (Demo.MetronomeContracts Demo.node Demo.healthy)
          (Auctions_methods "genesisTime" [])
     = Resolved (JNum 1529280060)
  /\ call (Demo.MetronomeContracts Demo.node Demo.healthy)
          (Auctions_methods "dailyAuctionStartTime" [])
     = Resolved (JNum 1529883999)
  /\ map snd (logged (fst Demo.import_ok))
     = [ Some
           (importRequest Demo.metaParsers
              (JObj
                 [ ("returnValues",
                    JObj
                      [ ("amountToImport", JNum 1000);
                        ("currentBurnHash", JStr "0xbb");
                        ("fee", JNum 5);
                        ("originChain", JStr "0x455448");
                        ("destinationRecipientAddr", JStr "0xf00d") ]) ])) ].
Proof.
  repeat (split; [ reflexivity | ]).
  exact (importMet_meta_template Demo.toHex Demo.MetronomeContracts
           Demo.logTransaction Demo.metaParsers Demo.node Demo.healthy
           Demo.key Demo.importParams (JNum 12) (JNum 1529280060)
           (JNum 1529883999) eq_refl eq_refl eq_refl).
Defined.

(** Number.parseInt on a few inputs. *)
Example parseInt_plain : Number_parseInt (JStr "1000") = JNum 1000.
Proof. reflexivity. Qed.
Example parseInt_fraction : Number_parseInt (JStr "12.75") = JNum 12.
Proof. reflexivity. Qed.
Example parseInt_neg : Number_parseInt (JStr "  -42abc") = JNum (-42).
Proof. reflexivity. Qed.
Example parseInt_hex : Number_parseInt (JStr "0x1A") = JNum 26.
Proof. reflexivity. Qed.
Example parseInt_word : Number_parseInt (JStr "abc") = JNaN.
Proof. reflexivity. Qed.
Example parseInt_dot : Number_parseInt (JStr ".5") = JNaN.
Proof. reflexivity. Qed.
Example parseInt_undefined : Number_parseInt JUndefined = JNaN.
Proof. reflexivity. Qed.
Example parseInt_number : Number_parseInt (JNum 250) = JNum 250.
Proof. reflexivity. Qed.

(** ToString on a few values. *)
Example ToString_zero : ToString (JNum 0) = "0".
Proof. reflexivity. Qed.
Example ToString_negative : ToString (JNum (-42)) = "-42".
Proof. reflexivity. Qed.
Example ToString_array :
  ToString (JArr [JStr "1.5"; JNull; JNum 2]) = "1.5,,2".
Proof. reflexivity. Qed.

(** Two exports in a row, the node's pending count having moved from 12 to
    13 in between, carry the nonces 12 and 13. *)
Example exportMet_nonce_follows_the_node :
  map (fun b => get "nonce" (snd b))
      (broadcasts
         (fst (exportMet Demo.toHex Demo.MetronomeContracts Demo.porter
                 (Demo.web3 (Resolved (JNum 12))) Demo.healthy
                 Demo.logTransaction Demo.metaParsers Demo.key
                 Demo.exportParams)
          ++ fst (exportMet Demo.toHex Demo.MetronomeContracts Demo.porter
                    (Demo.web3 (Resolved (JNum 13))) Demo.healthy
                    Demo.logTransaction Demo.metaParsers Demo.key
                    Demo.exportParams)))
  = [JNum 12; JNum 13].
Proof. reflexivity. Qed.

(** An export whose fee estimate fails broadcasts nothing. *)
Example exportMet_without_estimate :
  exportMet Demo.toHex Demo.MetronomeContracts
    (Demo.getExportMetFee (Rejected [JStr "porter down"])) Demo.node
    Demo.healthy Demo.logTransaction Demo.metaParsers Demo.key
    Demo.exportParams
  = ([ EvAddAccount Demo.key;
       EvGetTransactionCount (JStr "0xf00d") "pending";
       EvGetExportMetFee (JObj [ ("value", JNum 1000) ]) ],
     Rejected [JStr "porter down"]).
Proof. reflexivity. Qed.

(* ===================================================================== *)
(** ** More properties of the token API *)
(* ===================================================================== *)

(** Runs a token API function on every outcome of the requests it makes. *)
Ltac all_outcomes :=
  unfold importMet, exportMet, sendMet, estimateImportMetGas,
    estimateExportMetGas, getNextNonce, addAccount, request, plain, then_,
    after;
  cbn [Promise_all];
  repeat match goal with
         | |- context [truthy ?v] => destruct (truthy v) eqn:?
         | |- context [eth_getTransactionCount ?w ?a ?t] =>
             destruct (eth_getTransactionCount w a t) eqn:?
         | |- context [call ?c ?tx] => destruct (call c tx) eqn:?
         | |- context [met_getContracts ?m] =>
             destruct (met_getContracts m) eqn:?
         | |- context [Promise_all _] => cbn [Promise_all]
         end.

Section MoreProperties.

Context {handle meta Chain Lib : Type}.
Variable toHex : jsval -> jsval.
Variable MetronomeContracts : Web3 -> Chain -> Contracts handle.
Variable createMetronome : Lib -> Metronome handle.
Variable getExportMetFee : Web3 -> Chain -> jsval -> settled jsval.
Variable logTransaction : handle -> jsval -> option meta -> handle.
Variable metaParsers : MetaParsers meta.

(** X1. Gas estimation is read-only: estimateImportMetGas and
    estimateExportMetGas never add an account, never ask for a nonce or a
    fee, never broadcast and never reach the tracker, whatever the
    parameters and whatever the node answers. *)
Theorem gas_estimates_are_read_only web3 chain coin params :
  let import_estimate :=
    fst (estimateImportMetGas (meta := meta) toHex MetronomeContracts web3
           chain params) in
  let export_estimate :=
    fst (estimateExportMetGas (meta := meta) createMetronome coin params) in
  (accounts_added import_estimate = []
   /\ filter is_nonce_request import_estimate = []
   /\ fee_requests import_estimate = []
   /\ broadcasts import_estimate = []
   /\ sdk_sends import_estimate = []
   /\ logged import_estimate = [])
  /\ (accounts_added export_estimate = []
      /\ filter is_nonce_request export_estimate = []
      /\ fee_requests export_estimate = []
      /\ broadcasts export_estimate = []
      /\ sdk_sends export_estimate = []
      /\ logged export_estimate = []).
Proof.
  intros import_estimate export_estimate.
  unfold import_estimate, export_estimate.
  split; [ all_outcomes; cbn; repeat split; reflexivity | ].
  unfold estimateExportMetGas, request. cbn. repeat split; reflexivity.
Qed.

(** X2. estimateImportMetGas asks for the gas only after both auction
    reads: when one of them is rejected, no estimate is requested and the
    promise rejects with the reasons of the failed reads; when both
    resolve, one estimate is requested, with the options { from } alone,
    for a call carrying the two values read, and the result is the
    contract's answer, a rejection included. *)
Theorem estimateImportMetGas_outcome web3 chain params :
  let c := MetronomeContracts web3 chain in
  let from := prop "from" params in
  let genesis := call c (Auctions_methods "genesisTime" []) in
  let daily := call c (Auctions_methods "dailyAuctionStartTime" []) in
  let run :=
    estimateImportMetGas (meta := meta) toHex MetronomeContracts web3 chain
                         params in
  (is_rejected genesis || is_rejected daily = true ->
     estimates (fst run) = []
     /\ snd run = Rejected (reasons genesis ++ reasons daily))
  /\ (forall genesisTime dailyAuctionStartTime,
         genesis = Resolved genesisTime ->
         daily = Resolved dailyAuctionStartTime ->
         exists tx,
           estimates (fst run) = [(tx, JObj [ ("from", from) ])]
           /\ snd run = estimateGas c tx (JObj [ ("from", from) ])
           /\ contract tx = "METToken"
           /\ method tx = "importMET"
           /\ element 4 (arg_at 6 tx) = genesisTime
           /\ element 7 (arg_at 6 tx) = dailyAuctionStartTime).
Proof.
  intros c from genesis daily run. unfold run, genesis, daily, c.
  split.
  - intros H. revert H. all_outcomes; cbn; intros H;
      try discriminate H; rewrite ?app_nil_r; auto.
  - intros g d Hg Hd.
    unfold estimateImportMetGas, request, then_, after. cbn [Promise_all].
    rewrite Hg, Hd. eexists. cbn. repeat split; reflexivity.
Qed.

(** X3. sendMet signs through the library of getSigningLib and the SDK:
    it never adds an account to web3, never asks for a nonce and never
    sends a contract call itself.  When getContracts resolves it calls the
    SDK's sendMet once with (to, value, { from, gasPrice, gas }) and logs
    the template of metaParsers.transfer for { address:
    METToken.options.address, returnValues: { _from, _to, _value } }; when
    getContracts is rejected it rejects with the same reasons and nothing
    is sent or logged. *)
Theorem sendMet_outcome getSigningLib privateKey params :
  let met := createMetronome (getSigningLib privateKey) in
  let from := prop "from" params in
  let to := prop "to" params in
  let value := prop "value" params in
  let run :=
    sendMet createMetronome getSigningLib logTransaction metaParsers
            privateKey params in
  (accounts_added (fst run) = []
   /\ filter is_nonce_request (fst run) = []
   /\ broadcasts (fst run) = [])
  /\ (forall contracts,
         met_getContracts met = Resolved contracts ->
         sdk_sends (fst run)
         = [[ to; value;
              JObj [ ("from", from); ("gasPrice", prop "gasPrice" params);
                     ("gas", prop "gas" params) ] ]]
         /\ map snd (logged (fst run))
            = [ Some
                  (transfer metaParsers
                     (JObj
                        [ ("address", METToken_options_address contracts);
                          ("returnValues",
                           JObj [ ("_from", from); ("_to", to);
                                  ("_value", value) ]) ])) ])
  /\ (forall rs,
         met_getContracts met = Rejected rs ->
         snd run = Rejected rs
         /\ sdk_sends (fst run) = []
         /\ logged (fst run) = []).
Proof.
  intros met from to value run. unfold run, met.
  split; [ | split ].
  - all_outcomes; cbn; auto.
  - intros contracts Hc. unfold sendMet, request, then_, after.
    rewrite Hc. cbn. auto.
  - intros rs Hc. unfold sendMet, request, then_, after.
    rewrite Hc. cbn. auto.
Qed.

(** X4. The requests of a call do not wait for each other.  Every run of
    importMet begins with the same four steps, in this order: the private
    key is added to the web3 wallet, the pending nonce is requested, and
    genesisTime and dailyAuctionStartTime are read, also when the nonce
    request fails.  Every run of exportMet adds the key, requests the nonce,
    and asks for the fee exactly when the caller's fee is falsy, also when
    the nonce request fails.  The key is added once per call, and stays
    added when the call is rejected. *)
Theorem requests_are_issued_whatever_their_outcome
        web3 chain privateKey params :
  let from := prop "from" params in
  let import_run :=
    importMet toHex MetronomeContracts web3 chain logTransaction
              metaParsers privateKey params in
  let export_run :=
    exportMet toHex MetronomeContracts getExportMetFee web3 chain
              logTransaction metaParsers privateKey params in
  firstn 4 (fst import_run)
  = [ EvAddAccount privateKey;
      EvGetTransactionCount from "pending";
      EvCall (Auctions_methods "genesisTime" []);
      EvCall (Auctions_methods "dailyAuctionStartTime" []) ]
  /\ accounts_added (fst import_run) = [privateKey]
  /\ firstn 2 (fst export_run)
     = [ EvAddAccount privateKey; EvGetTransactionCount from "pending" ]
  /\ accounts_added (fst export_run) = [privateKey]
  /\ fee_requests (fst export_run)
     = (if truthy (prop "fee" params) then []
        else [JObj [ ("value", prop "value" params) ]]).
Proof.
  intros from import_run export_run.
  unfold import_run, export_run, from.
  split; [ all_outcomes; reflexivity | ].
  split; [ all_outcomes; reflexivity | ].
  split; [ | split ].
  - all_outcomes;
      try destruct (getExportMetFee web3 chain _); reflexivity.
  - all_outcomes;
      try destruct (getExportMetFee web3 chain _); reflexivity.
  - unfold exportMet, getNextNonce, addAccount, request, plain, then_, after.
    destruct (truthy (prop "fee" params)); cbn [Promise_all];
      destruct (eth_getTransactionCount web3 (prop "from" params) "pending");
      try destruct (getExportMetFee web3 chain _); reflexivity.
Qed.


(** X6. Whatever exportMet or importMet broadcasts goes out with the
    options { from, gasPrice, gas, nonce }: [from], [gasPrice] and [gas] are
    the caller's parameters as they are (undefined when absent, no default
    is filled in), and no other option is set. *)
Theorem send_options_are_the_callers web3 chain privateKey params :
  let export_run :=
    exportMet toHex MetronomeContracts getExportMetFee web3 chain
              logTransaction metaParsers privateKey params in
  let import_run :=
    importMet toHex MetronomeContracts web3 chain logTransaction
              metaParsers privateKey params in
  forall tx options,
    In (tx, options) (broadcasts (fst export_run))
    \/ In (tx, options) (broadcasts (fst import_run)) ->
    exists nonce,
      options
      = JObj [ ("from", prop "from" params);
               ("gasPrice", prop "gasPrice" params);
               ("gas", prop "gas" params);
               ("nonce", nonce) ].
Proof.
  intros export_run import_run tx options [H | H].
  - unfold export_run in H.
    destruct (exportMet_cases getExportMetFee web3 chain params)
      as [(n & f & Hn & Hf) | Hrej].
    + rewrite (exportMet_resolved toHex MetronomeContracts getExportMetFee
                 logTransaction metaParsers web3 chain privateKey params
                 n f Hn Hf) in H.
      exists n. cbn [fst] in H.
      destruct (truthy (prop "fee" params)); cbn in H;
        destruct H as [H | []]; injection H as _ <-; reflexivity.
    + destruct (exportMet_rejected toHex MetronomeContracts getExportMetFee
                  logTransaction metaParsers web3 chain privateKey params
                  Hrej) as [rs E].
      rewrite E in H. cbn [fst] in H.
      destruct (truthy (prop "fee" params)); cbn in H; destruct H.
  - unfold import_run in H.
    destruct (importMet_cases MetronomeContracts web3 chain params)
      as [(n & g & d & Hn & Hg & Hd) | Hrej].
    + rewrite (importMet_resolved toHex MetronomeContracts logTransaction
                 metaParsers web3 chain privateKey params n g d Hn Hg Hd)
        in H.
      exists n. cbn in H. destruct H as [H | []].
      injection H as _ <-. reflexivity.
    + destruct (importMet_rejected toHex MetronomeContracts logTransaction
                  metaParsers web3 chain privateKey params Hrej) as [rs E].
      rewrite E in H. cbn in H. destruct H.
Qed.

(** X7. What exportMet logs is what it sends: for the call it broadcasts
    and the template it hands to logTransaction, the template is
    metaParsers.export of an object whose address is [from] and whose
    return values repeat the call's arguments: destinationChain is the
    first argument, destinationRecipientAddr the third, amountToBurn the
    fourth and fee the fifth; the handle logged is the one of that send, and
    it is logged under [from]. *)
Theorem exportMet_logs_what_it_sends web3 chain privateKey params :
  let c := MetronomeContracts web3 chain in
  let from := prop "from" params in
  let run :=
    exportMet toHex MetronomeContracts getExportMetFee web3 chain
              logTransaction metaParsers privateKey params in
  forall tx options h address template,
    In (tx, options) (broadcasts (fst run)) ->
    In (h, address, template) (logged (fst run)) ->
    h = send c tx options
    /\ address = from
    /\ exists argument,
        template = Some (export metaParsers argument)
        /\ get "address" argument = from
        /\ get "destinationChain" (get "returnValues" argument) = arg_at 0 tx
        /\ get "destinationRecipientAddr" (get "returnValues" argument)
           = arg_at 2 tx
        /\ get "amountToBurn" (get "returnValues" argument) = arg_at 3 tx
        /\ get "fee" (get "returnValues" argument) = arg_at 4 tx.
Proof.
  intros c from run tx options h address template Hs Hl.
  unfold run in Hs, Hl.
  destruct (exportMet_cases getExportMetFee web3 chain params)
    as [(n & f & Hn & Hf) | Hrej].
  - rewrite (exportMet_resolved toHex MetronomeContracts getExportMetFee
               logTransaction metaParsers web3 chain privateKey params
               n f Hn Hf) in Hs, Hl.
    cbn [fst] in Hs, Hl.
    destruct (truthy (prop "fee" params)); cbn in Hs, Hl;
      destruct Hs as [Hs | []]; destruct Hl as [Hl | []];
      injection Hs as <- <-; injection Hl as <- <- <-;
      (split; [ reflexivity | split; [ reflexivity | ] ]);
      eexists; (split; [ reflexivity | ]); cbn; repeat split; reflexivity.
  - destruct (exportMet_rejected toHex MetronomeContracts getExportMetFee
                logTransaction metaParsers web3 chain privateKey params
                Hrej) as [rs E].
    rewrite E in Hs. cbn [fst] in Hs.
    destruct (truthy (prop "fee" params)); cbn in Hs; destruct Hs.
Qed.

(** X8. What importMet logs is what it sends: the template handed to
    logTransaction is metaParsers.importRequest of return values that
    repeat the proof sent: originChain is the first argument of importMET,
    destinationRecipientAddr the second address of the third argument,
    currentBurnHash the second hash of the fifth argument, amountToImport
    and fee the second and third entries of the seventh; the handle logged
    is the one of that send, and it is logged under [from]. *)
Theorem importMet_logs_what_it_sends web3 chain privateKey params :
  let c := MetronomeContracts web3 chain in
  let from := prop "from" params in
  let run :=
    importMet toHex MetronomeContracts web3 chain logTransaction
              metaParsers privateKey params in
  forall tx options h address template,
    In (tx, options) (broadcasts (fst run)) ->
    In (h, address, template) (logged (fst run)) ->
    h = send c tx options
    /\ address = from
    /\ exists argument,
        template = Some (importRequest metaParsers argument)
        /\ get "originChain" (get "returnValues" argument) = arg_at 0 tx
        /\ get "destinationRecipientAddr" (get "returnValues" argument)
           = element 1 (arg_at 2 tx)
        /\ get "currentBurnHash" (get "returnValues" argument)
           = element 1 (arg_at 4 tx)
        /\ get "amountToImport" (get "returnValues" argument)
           = element 1 (arg_at 6 tx)
        /\ get "fee" (get "returnValues" argument)
           = element 2 (arg_at 6 tx).
Proof.
  intros c from run tx options h address template Hs Hl.
  unfold run in Hs, Hl.
  destruct (importMet_cases MetronomeContracts web3 chain params)
    as [(n & g & d & Hn & Hg & Hd) | Hrej].
  - rewrite (importMet_resolved toHex MetronomeContracts logTransaction
               metaParsers web3 chain privateKey params n g d Hn Hg Hd)
      in Hs, Hl.
    cbn in Hs, Hl.
    destruct Hs as [Hs | []]. destruct Hl as [Hl | []].
    injection Hs as <- <-. injection Hl as <- <- <-.
    split; [ reflexivity | split; [ reflexivity | ] ].
    eexists. split; [ reflexivity | ]. cbn. repeat split; reflexivity.
  - destruct (importMet_rejected toHex MetronomeContracts logTransaction
                metaParsers web3 chain privateKey params Hrej) as [rs E].
    rewrite E in Hs. cbn in Hs. destruct Hs.
Qed.

End MoreProperties.

(* ===================================================================== *)
(** ** More properties of sendCoin and of the plugin object *)
(* ===================================================================== *)

Lemma leading_digits_uint_app d t :
  leading_digits 10 (NilEmpty.string_of_uint d ++ t)
  = leading_digits 10 (NilEmpty.string_of_uint d) ++ leading_digits 10 t.
Proof.
  induction d; cbn [NilEmpty.string_of_uint append];
    [ reflexivity | .. ];
    cbn [leading_digits];
    match goal with
    | |- context [digit_value ?c] =>
        let v := eval vm_compute in (digit_value c) in
        change (digit_value c) with v
    end; cbv iota; cbn [Z.ltb Z.compare Pos.compare Pos.compare_cont];
    cbv iota; rewrite IHd; reflexivity.
Qed.

Lemma leading_digits_ends t :
  ends_number t = true -> leading_digits 10 t = [].
Proof.
  destruct t as [|c t']; [ reflexivity | ].
  unfold ends_number. intros H. apply andb_prop in H. destruct H as [H _].
  apply negb_true_iff in H.
  cbn [leading_digits]. unfold digit_value. rewrite H.
  destruct ((97 <=? code c) && (code c <=? 122)) eqn:E2.
  - apply andb_prop in E2. destruct E2 as [E2 _]. apply Z.leb_le in E2.
    destruct (code c - 87 <? 10) eqn:E3; [ | reflexivity ].
    apply Z.ltb_lt in E3. lia.
  - destruct ((65 <=? code c) && (code c <=? 90)) eqn:E4; [ | reflexivity ].
    apply andb_prop in E4. destruct E4 as [E4 _]. apply Z.leb_le in E4.
    destruct (code c - 55 <? 10) eqn:E5; [ | reflexivity ].
    apply Z.ltb_lt in E5. lia.
Qed.

Lemma split_radix_decimal c r :
  match r with
  | EmptyString => True
  | String x _ => code x <> 120 /\ code x <> 88
  end ->
  split_radix (String c r) = (10, String c r).
Proof.
  unfold split_radix. destruct r as [|x r']; [ reflexivity | ].
  intros [H1 H2].
  destruct (Z.eqb_spec (code x) 120); [ contradiction | ].
  destruct (Z.eqb_spec (code x) 88); [ contradiction | ].
  rewrite andb_false_r. reflexivity.
Qed.

(** The head of a digit string followed by the start of another token is
    never [x]. *)
Lemma head_not_x r t :
  match r with
  | EmptyString => True
  | String x _ => is_digit x
  end ->
  ends_number t = true ->
  match (r ++ t)%string with
  | EmptyString => True
  | String x _ => code x <> 120 /\ code x <> 88
  end.
Proof.
  unfold is_digit. destruct r as [|x r']; cbn [append].
  - intros _. destruct t as [|x t']; [ trivial | ].
    unfold ends_number. intros H. apply andb_prop in H. destruct H as [_ H].
    apply negb_true_iff, orb_false_elim in H. destruct H as [H1 H2].
    apply Z.eqb_neq in H1, H2. auto.
  - intros H _. lia.
Qed.

Lemma skip_ws_minus r : skip_ws (String "-" r) = String "-" r.
Proof.
  cbn [skip_ws]. change (ws1 "-") with false. cbv iota.
  destruct r as [|b r2]; [ reflexivity | ].
  change (ws2 "-" b) with false. cbv iota.
  destruct r2 as [|x r3]; [ reflexivity | ].
  assert (E3 : ws3 "-" b x = false) by reflexivity.
  rewrite E3. reflexivity.
Qed.

(** The digits of a decimal numeral, read up to the end of the number. *)
Lemma parse_magnitude d sign t :
  d <> Decimal.Nil ->
  ends_number t = true ->
  (let (R, S2) := split_radix (NilEmpty.string_of_uint d ++ t) in
   match leading_digits R S2 with
   | [] => JNaN
   | ds => JNum (sign * mathInt R ds)
   end) = JNum (sign * Z.of_uint d).
Proof.
  intros Hd Ht.
  destruct (uint_string_head d Hd) as (c & r & E & Hc & Hr).
  pose proof (leading_digits_uint d) as Hv.
  pose proof (leading_digits_uint_app d t) as Ha.
  rewrite (leading_digits_ends t Ht), app_nil_r in Ha.
  rewrite E in *. cbn [append] in *.
  rewrite (split_radix_decimal c (r ++ t) (head_not_x r t Hr Ht)).
  cbv beta iota. rewrite Ha.
  pose proof (leading_digits_nonempty c r Hc) as Hne.
  destruct (leading_digits 10 (String c r)) as [|x ds]; [ congruence | ].
  rewrite Hv. reflexivity.
Qed.

(** parseInt reads the decimal form of an integer up to the first character
    that cannot continue it. *)
Lemma parseInt_string_prefix n t :
  ends_number t = true -> parseInt_string (decimal n ++ t) = JNum n.
Proof.
  intros Ht.
  assert (Hz : forall p, NilZero.string_of_uint (Pos.to_uint p)
                         = NilEmpty.string_of_uint (Pos.to_uint p)).
  { intros p. pose proof (Unsigned.to_uint_nonnil p).
    destruct (Pos.to_uint p); [ congruence | reflexivity .. ]. }
  assert (Hpos : forall d,
    d <> Decimal.Nil ->
    (let (sg, S1) := split_sign (skip_ws (NilEmpty.string_of_uint d ++ t)) in
     let (R, S2) := split_radix S1 in
     match leading_digits R S2 with
     | [] => JNaN
     | ds => JNum (sg * mathInt R ds)
     end) = JNum (Z.of_uint d)).
  { intros d Hd.
    destruct (uint_string_head d Hd) as (c & r & E & Hc & Hr).
    pose proof (parse_magnitude d 1 t Hd Ht) as Hm.
    rewrite E in *. cbn [append] in *.
    rewrite (skip_ws_digit c (r ++ t) Hc), (split_sign_digit c (r ++ t) Hc).
    rewrite Hm. f_equal. lia. }
  unfold parseInt_string, decimal.
  destruct n as [|p|p]; cbn [Z.to_int NilZero.string_of_int].
  - apply (Hpos (Decimal.D0 Decimal.Nil)). discriminate.
  - rewrite Hz.
    rewrite (Hpos (Pos.to_uint p) (Unsigned.to_uint_nonnil p)).
    unfold Z.of_uint. rewrite Unsigned.of_to. reflexivity.
  - rewrite Hz. cbn [append]. rewrite skip_ws_minus.
    assert (Hm : forall r, split_sign (String "-" r) = (-1, r))
      by reflexivity.
    rewrite Hm.
    rewrite (parse_magnitude (Pos.to_uint p) (-1) t
               (Unsigned.to_uint_nonnil p) Ht).
    unfold Z.of_uint. rewrite Unsigned.of_to. reflexivity.
Qed.

Lemma leading_digits_hex_acc d : forall acc,
  fold_left (fun a x => a * 16 + x)
            (leading_digits 16 (HexadecimalString.NilEmpty.string_of_uint d))
            (Z.pos acc)
  = Z.pos (Pos.of_hex_uint_acc d acc).
Proof.
  induction d; intros acc;
    cbn [HexadecimalString.NilEmpty.string_of_uint Pos.of_hex_uint_acc];
    [ reflexivity | .. ];
    cbn [leading_digits];
    match goal with
    | |- context [digit_value ?c] =>
        let v := eval vm_compute in (digit_value c) in
        change (digit_value c) with v
    end; cbv iota; cbn [Z.ltb Z.compare Pos.compare Pos.compare_cont];
    cbv iota; cbn [fold_left]; rewrite <- IHd; f_equal; lia.
Qed.

Lemma leading_digits_hex d :
  mathInt 16 (leading_digits 16 (HexadecimalString.NilEmpty.string_of_uint d))
  = Z.of_N (Pos.of_hex_uint d).
Proof.
  unfold mathInt.
  induction d;
    cbn [HexadecimalString.NilEmpty.string_of_uint Pos.of_hex_uint];
    [ reflexivity | .. ];
    cbn [leading_digits];
    match goal with
    | |- context [digit_value ?c] =>
        let v := eval vm_compute in (digit_value c) in
        change (digit_value c) with v
    end; cbv iota; cbn [Z.ltb Z.compare Pos.compare Pos.compare_cont];
    cbv iota; cbn [fold_left]; cbn [Z.mul Z.add Z.of_N];
    [ exact IHd | apply leading_digits_hex_acc .. ].
Qed.

Lemma leading_digits_hex_nonempty d :
  d <> Hexadecimal.Nil ->
  leading_digits 16 (HexadecimalString.NilEmpty.string_of_uint d) <> [].
Proof.
  destruct d; intros H; [ congruence | .. ];
    cbn [HexadecimalString.NilEmpty.string_of_uint leading_digits];
    match goal with
    | |- context [digit_value ?c] =>
        let v := eval vm_compute in (digit_value c) in
        change (digit_value c) with v
    end; cbv iota; cbn [Z.ltb Z.compare Pos.compare Pos.compare_cont];
    cbv iota; discriminate.
Qed.

(** parseInt reads back the hexadecimal form of a number behind [0x]. *)
Lemma parseInt_string_hexadecimal n :
  parseInt_string ("0x" ++ hexadecimal n) = JNum (Z.of_N n).
Proof.
  assert (H0 : is_digit "0") by (unfold is_digit; vm_compute; split; discriminate).
  assert (Hd : forall d,
    d <> Hexadecimal.Nil ->
    parseInt_string ("0x" ++ HexadecimalString.NilEmpty.string_of_uint d)
    = JNum (Z.of_N (Pos.of_hex_uint d))).
  { intros d Hne. unfold parseInt_string. cbn [append].
    rewrite (skip_ws_digit "0" _ H0), (split_sign_digit "0" _ H0).
    change (split_radix (String "0" (String "x" ?r))) with (16, r).
    cbv beta iota.
    pose proof (leading_digits_hex d) as Hv.
    pose proof (leading_digits_hex_nonempty d Hne) as Hn.
    destruct (leading_digits 16 (HexadecimalString.NilEmpty.string_of_uint d))
      as [|x ds]; [ congruence | ].
    rewrite Hv. f_equal. lia. }
  unfold hexadecimal. destruct n as [|p].
  - reflexivity.
  - cbn [N.to_hex_uint].
    pose proof (HexadecimalPos.Unsigned.to_uint_nonnil p) as Hne.
    assert (Hz : HexadecimalString.NilZero.string_of_uint (Pos.to_hex_uint p)
                 = HexadecimalString.NilEmpty.string_of_uint
                     (Pos.to_hex_uint p)).
    { destruct (Pos.to_hex_uint p); [ congruence | reflexivity .. ]. }
    rewrite Hz, (Hd _ Hne), HexadecimalPos.Unsigned.of_to. reflexivity.
Qed.

(** X9. sendCoin reads a string amount up to the end of its leading
    integer: a decimal integer of absolute value up to 2^53, followed by
    anything that does not start with a digit or an x (a fraction, an
    exponent as in 1e18, a thousands separator as in 1,000, a unit), is
    sent as that integer, negative ones included. *)
Theorem sendCoin_sends_the_leading_integer
        {handle meta sendPromise QtumRPC : Type}
        (toPromiEvent : QtumRPC -> sendPromise -> handle)
        (walletRPCProvider : WalletRPCProvider sendPromise)
        (plugins : Plugins handle meta QtumRPC) privateKey params n rest :
  prop "value" params = JStr (decimal n ++ rest) ->
  ends_number rest = true ->
  Z.abs n <= 2 ^ 53 ->
  wallet_amounts
    (fst (sendCoin toPromiEvent walletRPCProvider plugins privateKey params))
  = [JNum n].
Proof.
  intros Hv Hr _. unfold sendCoin. cbn. rewrite Hv.
  unfold Number_parseInt. cbn [ToString].
  now rewrite parseInt_string_prefix.
Qed.

(** X10. sendCoin passes an integer Number amount on unchanged, for every
    integer of absolute value up to 2^53: zero and negative amounts are
    sent to the wallet like any other. *)
Theorem sendCoin_sends_integer_numbers_unchanged
        {handle meta sendPromise QtumRPC : Type}
        (toPromiEvent : QtumRPC -> sendPromise -> handle)
        (walletRPCProvider : WalletRPCProvider sendPromise)
        (plugins : Plugins handle meta QtumRPC) privateKey params n :
  prop "value" params = JNum n ->
  Z.abs n <= 2 ^ 53 ->
  wallet_amounts
    (fst (sendCoin toPromiEvent walletRPCProvider plugins privateKey params))
  = [JNum n].
Proof.
  intros Hv _. unfold sendCoin. cbn. rewrite Hv.
  unfold Number_parseInt. cbn [ToString].
  now rewrite parseInt_string_decimal.
Qed.

(** X11. sendCoin reads an amount written as 0x followed by hexadecimal
    digits in base 16: the hexadecimal form of [n] behind 0x is sent as
    [n], for every [n] up to 2^53. *)
Theorem sendCoin_reads_hexadecimal_amounts
        {handle meta sendPromise QtumRPC : Type}
        (toPromiEvent : QtumRPC -> sendPromise -> handle)
        (walletRPCProvider : WalletRPCProvider sendPromise)
        (plugins : Plugins handle meta QtumRPC) privateKey params n :
  prop "value" params = JStr ("0x" ++ hexadecimal n) ->
  (n <= 2 ^ 53)%N ->
  wallet_amounts
    (fst (sendCoin toPromiEvent walletRPCProvider plugins privateKey params))
  = [JNum (Z.of_N n)].
Proof.
  intros Hv _. unfold sendCoin. cbn. rewrite Hv.
  unfold Number_parseInt. cbn [ToString].
  now rewrite parseInt_string_hexadecimal.
Qed.



(* ===================================================================== *)
(** ** These properties at work on concrete runs *)
(* ===================================================================== *)

Lemma estimateImportMetGas_outcome_witness :
  (is_rejected (call (Demo.MetronomeContracts Demo.node Demo.unreachable)
                     (Auctions_methods "genesisTime" []))
   || is_rejected (call (Demo.MetronomeContracts Demo.node Demo.unreachable)
                        (Auctions_methods "dailyAuctionStartTime" []))
   = true
   /\ estimates (fst Samples.import_estimate_ko) = []
   /\ snd Samples.import_estimate_ko = Rejected [JStr "connection lost"])
  /\ (call (Demo.MetronomeContracts Demo.node Demo.healthy)
           (Auctions_methods "genesisTime" [])
      = Resolved (JNum 1529280060)
      /\ call (Demo.MetronomeContracts Demo.node Demo.healthy)
              (Auctions_methods "dailyAuctionStartTime" [])
         = Resolved (JNum 1529883999)
      /\ exists tx,
          estimates (fst Demo.import_estimate)
          = [(tx, JObj [ ("from", JStr "0xf00d") ])]
          /\ snd Demo.import_estimate = Resolved (JNum 150000)
          /\ contract tx = "METToken"
          /\ method tx = "importMET"
          /\ element 4 (arg_at 6 tx) = JNum 1529280060
          /\ element 7 (arg_at 6 tx) = JNum 1529883999).
Proof.
  pose proof (estimateImportMetGas_outcome (meta := jsval) Demo.toHex
                Demo.MetronomeContracts Demo.node Demo.unreachable
                Demo.importParams) as Hko.
  pose proof (estimateImportMetGas_outcome (meta := jsval) Demo.toHex
                Demo.MetronomeContracts Demo.node Demo.healthy
                Demo.importParams) as Hok.
  split.
  - split; [ reflexivity | exact (proj1 Hko eq_refl) ].
  - split; [ reflexivity | split; [ reflexivity | ] ].
    exact (proj2 Hok _ _ eq_refl eq_refl).
Defined.

Lemma sendMet_outcome_witness :
  (met_getContracts (Demo.sdk (Demo.getSigningLib Demo.key))
   = Resolved {| METToken_options_address := JStr "0x3e7" |}
   /\ sdk_sends (fst Samples.transfer_ok)
      = [[ JStr "0xbeef"; JNum 250;
           JObj [ ("from", JStr "0xf00d"); ("gasPrice", JStr "1000000000");
                  ("gas", JNum 90000) ] ]]
   /\ map snd (logged (fst Samples.transfer_ok))
      = [ Some
            (transfer Demo.metaParsers
               (JObj
                  [ ("address", JStr "0x3e7");
                    ("returnValues",
                     JObj [ ("_from", JStr "0xf00d"); ("_to", JStr "0xbeef");
                            ("_value", JNum 250) ]) ])) ])
  /\ (met_getContracts (Samples.broken_sdk (Demo.getSigningLib Demo.key))
      = Rejected [JStr "no contracts"]
      /\ snd Samples.transfer_ko = Rejected [JStr "no contracts"]
      /\ sdk_sends (fst Samples.transfer_ko) = []
      /\ logged (fst Samples.transfer_ko) = []).
Proof.
  pose proof (sendMet_outcome Demo.sdk Demo.logTransaction Demo.metaParsers
                Demo.getSigningLib Demo.key Samples.transferParams) as Hok.
  pose proof (sendMet_outcome Samples.broken_sdk Demo.logTransaction
                Demo.metaParsers Demo.getSigningLib Demo.key
                Samples.transferParams) as Hko.
  split.
  - split; [ reflexivity | ].
    exact (proj1 (proj2 Hok) _ eq_refl).
  - split; [ reflexivity | ].
    exact (proj2 (proj2 Hko) _ eq_refl).
Defined.

Lemma send_options_are_the_callers_witness :
  In (Demo.export_call, Demo.send_options) (broadcasts (fst Demo.export_fee))
  /\ exists nonce,
      Demo.send_options
      = JObj [ ("from", prop "from" Demo.exportParamsWithFee);
               ("gasPrice", prop "gasPrice" Demo.exportParamsWithFee);
               ("gas", prop "gas" Demo.exportParamsWithFee);
               ("nonce", nonce) ].
Proof.
  assert (H : In (Demo.export_call, Demo.send_options)
                 (broadcasts (fst Demo.export_fee)))
    by (left; reflexivity).
  split; [ exact H | ].
  exact (send_options_are_the_callers Demo.toHex Demo.MetronomeContracts
           Demo.porter Demo.logTransaction Demo.metaParsers Demo.node
           Demo.healthy Demo.key Demo.exportParamsWithFee _ _ (or_introl H)).
Defined.

Lemma exportMet_logs_what_it_sends_witness :
  In (Demo.export_call, Demo.send_options) (broadcasts (fst Demo.export_fee))
  /\ (exists h address template,
         In (h, address, template) (logged (fst Demo.export_fee))
         /\ h = Demo.Sent Demo.export_call Demo.send_options
         /\ address = JStr "0xf00d"
         /\ exists argument,
             template = Some (export Demo.metaParsers argument)
             /\ get "address" argument = JStr "0xf00d"
             /\ get "destinationChain" (get "returnValues" argument)
                = JStr "0x455443"
             /\ get "destinationRecipientAddr" (get "returnValues" argument)
                = JStr "0xbeef"
             /\ get "amountToBurn" (get "returnValues" argument) = JNum 1000
             /\ get "fee" (get "returnValues" argument) = JNum 3).
Proof.
  assert (Hs : In (Demo.export_call, Demo.send_options)
                  (broadcasts (fst Demo.export_fee)))
    by (left; reflexivity).
  split; [ exact Hs | ].
  do 3 eexists.
  assert (Hl : In (hd (Demo.Sent Demo.export_call Demo.send_options, JNull,
                       None)
                      (logged (fst Demo.export_fee)))
                  (logged (fst Demo.export_fee)))
    by (left; reflexivity).
  split; [ exact Hl | ].
  exact (exportMet_logs_what_it_sends Demo.toHex Demo.MetronomeContracts
           Demo.porter Demo.logTransaction Demo.metaParsers Demo.node
           Demo.healthy Demo.key Demo.exportParamsWithFee _ _ _ _ _ Hs Hl).
Defined.

Lemma importMet_logs_what_it_sends_witness :
  In (Demo.importMET_call, Demo.send_options)
     (broadcasts (fst Demo.import_ok))
  /\ (exists h address template,
         In (h, address, template) (logged (fst Demo.import_ok))
         /\ h = Demo.Sent Demo.importMET_call Demo.send_options
         /\ address = JStr "0xf00d"
         /\ exists argument,
             template = Some (importRequest Demo.metaParsers argument)
             /\ get "originChain" (get "returnValues" argument)
                = JStr "0x455448"
             /\ get "destinationRecipientAddr" (get "returnValues" argument)
                = JStr "0xf00d"
             /\ get "currentBurnHash" (get "returnValues" argument)
                = JStr "0xbb"
             /\ get "amountToImport" (get "returnValues" argument)
                = JNum 1000
             /\ get "fee" (get "returnValues" argument) = JNum 5).
Proof.
  assert (Hs : In (Demo.importMET_call, Demo.send_options)
                  (broadcasts (fst Demo.import_ok)))
    by (left; reflexivity).
  split; [ exact Hs | ].
  do 3 eexists.
  assert (Hl : In (hd (Demo.Sent Demo.importMET_call Demo.send_options,
                       JNull, None)
                      (logged (fst Demo.import_ok)))
                  (logged (fst Demo.import_ok)))
    by (left; reflexivity).
  split; [ exact Hl | ].
  exact (importMet_logs_what_it_sends Demo.toHex Demo.MetronomeContracts
           Demo.logTransaction Demo.metaParsers Demo.node Demo.healthy
           Demo.key Demo.importParams _ _ _ _ _ Hs Hl).
Defined.

Lemma sendCoin_sends_the_leading_integer_witness :
  prop "value" Samples.coinParamsExponent = JStr (decimal 1 ++ "e18")
  /\ ends_number "e18" = true
  /\ Z.abs 1 <= 2 ^ 53
  /\ wallet_amounts (fst (Demo.coin_run Samples.coinParamsExponent))
     = [JNum 1].
Proof.
  assert (H : Z.abs 1 <= 2 ^ 53) by (vm_compute; discriminate).
  split; [ reflexivity | split; [ reflexivity | split; [ exact H | ] ] ].
  exact (sendCoin_sends_the_leading_integer Demo.toPromiEvent
           Demo.walletRPCProvider Demo.plugins Demo.key
           Samples.coinParamsExponent 1 "e18" eq_refl eq_refl H).
Defined.

Lemma sendCoin_sends_integer_numbers_unchanged_witness :
  prop "value" Samples.coinParamsNegative = JNum (-5)
  /\ Z.abs (-5) <= 2 ^ 53
  /\ wallet_amounts (fst (Demo.coin_run Samples.coinParamsNegative))
     = [JNum (-5)].
Proof.
  assert (H : Z.abs (-5) <= 2 ^ 53) by (vm_compute; discriminate).
  split; [ reflexivity | split; [ exact H | ] ].
  exact (sendCoin_sends_integer_numbers_unchanged Demo.toPromiEvent
           Demo.walletRPCProvider Demo.plugins Demo.key
           Samples.coinParamsNegative (-5) eq_refl H).
Defined.

Lemma sendCoin_reads_hexadecimal_amounts_witness :
  prop "value" Samples.coinParamsHex = JStr ("0x" ++ hexadecimal 255)
  /\ (255 <= 2 ^ 53)%N
  /\ wallet_amounts (fst (Demo.coin_run Samples.coinParamsHex)) = [JNum 255].
Proof.
  assert (H : (255 <= 2 ^ 53)%N) by (vm_compute; discriminate).
  split; [ reflexivity | split; [ exact H | ] ].
  exact (sendCoin_reads_hexadecimal_amounts Demo.toPromiEvent
           Demo.walletRPCProvider Demo.plugins Demo.key
           Samples.coinParamsHex 255 eq_refl H).
Defined.


